(** * ibis_bigquery: the [Backend] facade of [ibis_bigquery/__init__.py]

    A shallow embedding of the BigQuery backend of Ibis.  Methods of the
    Python class [Backend] become computations in a small state-and-error
    monad: the state holds the instance ([self]), the outside world (the
    BigQuery service, the credential store) and the log of every call that
    leaves this module; a Python exception is the [Raise] outcome. *)

From Stdlib Require Import String Ascii List Bool Arith Lia.
Import ListNotations.
Open Scope list_scope.
Open Scope string_scope.

(** ** Python exceptions and results *)

(** The exception classes the module raises or catches.  [AttributeError] is
    what the interpreter raises when an instance attribute was never
    assigned; [TypeError] is a call with a keyword the callee does not take,
    or a failed unpacking; [NotFound] is
    [google.api_core.exceptions.NotFound]; [LibraryError] is any other
    exception coming out of a library call. *)
Inductive PyExc : Type :=
| ValueError (msg : string)
| AttributeError (attr : string)
| TypeError (msg : string)
| NotFound (msg : string)
| LibraryError (cls msg : string).

Inductive Result (A : Type) : Type :=
| Ok (a : A)
| Raise (e : PyExc).
Arguments Ok {A} a.
Arguments Raise {A} e.

Definition raised {A} (r : Result A) : option PyExc :=
  match r with Ok _ => None | Raise e => Some e end.

(** The error vocabulary of the specification, and the raise sites of the
    module it names.  The module raises three [ValueError]s, told apart by
    their message; [NotFound] comes from the client library.  No raise site
    of the module reports a missing connection, so no exception maps to
    [NotConnected]. *)
Inductive ErrorKind : Type :=
| InvalidIdentifier
| UnresolvedDataset
| UnsupportedType
| NotConnected
| NotFoundKind
| QueryExecutionError
| InvalidConfiguration.

Definition msg_too_many : string := "Got too many components in table name: ".
Definition msg_no_dataset : string := "Unable to determine BigQuery dataset.".
Definition msg_auth_cache_pre : string := "Got unexpected value for auth_cache = '".
Definition msg_auth_cache_post : string :=
  "'. Expected one of 'default', 'reauth', or 'none'.".

Definition error_kind (e : PyExc) : option ErrorKind :=
  match e with
  | ValueError m =>
      if prefix msg_too_many m then Some InvalidIdentifier
      else if prefix msg_no_dataset m then Some UnresolvedDataset
      else if prefix msg_auth_cache_pre m then Some InvalidConfiguration
      else None
  | NotFound _ => Some NotFoundKind
  | AttributeError _ | TypeError _ | LibraryError _ _ => None
  end.

(** ** Python strings *)

(** [s.split(sep)] for a one-character separator: never empty, one more
    component than there are separators. *)
Fixpoint split_on (sep : ascii) (s : string) : list string :=
  match s with
  | EmptyString => [EmptyString]
  | String c rest =>
      if Ascii.eqb c sep then EmptyString :: split_on sep rest
      else match split_on sep rest with
           | [] => [String c EmptyString]
           | h :: t => String c h :: t
           end
  end.

Definition dot : ascii := "."%char.

(** [name.split(".")] *)
Definition split_dot (s : string) : list string := split_on dot s.

(** [sep.join(parts)] *)
Fixpoint join (sep : string) (parts : list string) : string :=
  match parts with
  | [] => EmptyString
  | [p] => p
  | p :: rest => p ++ sep ++ join sep rest
  end.

(** [s.rsplit(".", 1)]: cut at the last separator, if there is one. *)
Definition rsplit_dot1 (s : string) : list string :=
  match rev (split_dot s) with
  | [] => [s]
  | [_] => [s]
  | last :: before => [join "." (rev before); last]
  end.

(** Truth value of a [str]: the empty string is false. *)
Definition str_truthy (s : string) : bool :=
  match s with EmptyString => false | _ => true end.

(** Truth value of an [Optional[str]]: [None] and the empty string are false. *)
Definition opt_truthy (o : option string) : bool :=
  match o with Some s => str_truthy s | None => false end.

(** [a or b] for an [Optional[str]] on the left. *)
Definition opt_or (o : option string) (d : string) : string :=
  match o with
  | Some s => if str_truthy s then s else d
  | None => d
  end.

(** ** Values of the libraries the module talks to

    Objects of the client library and of the expression framework are
    opaque to this module: they are handles, and everything done with them
    is a call recorded in the log. *)

Inductive Credentials : Type := CredentialsHandle (id : nat).
Inductive Client : Type := ClientHandle (id : nat).
Inductive QueryJob : Type := QueryJobHandle (id : nat).
Inductive BqTable : Type := BqTableHandle (id : nat).
Inductive DataFrame : Type := DataFrameHandle (id : nat).
Inductive Expr : Type := ExprHandle (id : nat).
Inductive TableExpr : Type := TableExprHandle (id : nat).
Inductive Schema : Type := SchemaHandle (id : nat).
Inductive DType : Type := DTypeHandle (id : nat).
Inductive PyObj : Type :=
| PyNone
| PyBool (b : bool)
| PyObjHandle (id : nat).
Inductive QueryParameter : Type := QueryParameterHandle (id : nat).
Inductive ResultHandler : Type := ResultHandlerHandle (id : nat).

(** [pydata_google_auth.cache]: the three credential caches of [connect]. *)
Inductive CredentialsCache : Type :=
| ReadWriteCredentialsCache (filename : string)
| WriteOnlyCredentialsCache (filename : string)
| NOOP.

(** [bq.job.QueryJobConfig]: the two attributes [_execute] assigns. *)
Record QueryJobConfig : Type := mkQueryJobConfig {
  query_parameters : list QueryParameter;
  use_legacy_sql : option bool
}.

(** A fresh [QueryJobConfig()]: nothing assigned yet. *)
Definition QueryJobConfig_new : QueryJobConfig :=
  {| query_parameters := []; use_legacy_sql := None |}.

Record DatasetReference : Type := mkDatasetReference {
  dsref_project : string;
  dsref_dataset : string
}.

Inductive TableReference : Type := TableReferenceHandle (id : nat).

(** What [client.get_table] is given: an id string or a reference. *)
Inductive TableArg : Type :=
| ById (table_id : string)
| ByRef (ref : TableReference).

(** A column descriptor of a cursor: [_adapt_types] reads its [name]. *)
Record Field : Type := mkField {
  field_name : string;
  field_id : nat
}.

(** [BigQueryCursor]: wraps the query job; [fetch_from_cursor] reads
    [cursor.query]. *)
Record BigQueryCursor : Type := mkBigQueryCursor {
  query : QueryJob
}.

(** [BigQueryDatabase(name, client)] *)
Record BigQueryDatabase : Type := mkBigQueryDatabase {
  database_name : string
}.

(** The statement of a compiled query; [result_handler] may be absent. *)
Record Statement : Type := mkStatement {
  stmt_id : nat;
  stmt_result_handler : option ResultHandler
}.

(** What [to_ast_ensure_limit] returns.  [execute] looks at its [dml]
    attribute with [getattr(query_ast, "dml", query_ast)], so both [dml] and
    a [result_handler] on the object itself may be absent. *)
Record QueryAST : Type := mkQueryAST {
  ast_id : nat;
  dml : option Statement;
  ast_result_handler : option ResultHandler
}.

(** The [limit] argument of [execute]: the string ["default"], [None] or a
    row count. *)
Inductive Limit : Type :=
| LimitDefault
| LimitNone
| LimitRows (n : nat).

(** [params]: [None] or a mapping, as its items in order. *)
Definition Params : Type := option (list (Expr * PyObj)).

(** [**kwargs]: keyword names with their values. *)
Definition Kwargs : Type := list (string * PyObj).

(** ** The instance

    The five attributes [connect] assigns.  A fresh [Backend()] has none of
    them: [None] here is an attribute that was never assigned, and reading it
    raises [AttributeError]. *)
Record Backend : Type := mkBackend {
  data_project : option string;
  billing_project : option string;
  dataset : option string;
  client : option Client;
  partition_column : option (option string)
}.

(** [Backend()], as [self.__class__()] and the module functions build it. *)
Definition Backend_new : Backend :=
  {| data_project := None; billing_project := None; dataset := None;
     client := None; partition_column := None |}.

(** ** Calls that leave the module

    Every call into the client library, the authentication library and the
    expression framework is logged with its arguments and with the exception
    it raised, if any.  So are the calls into the sibling module [client],
    apart from [parse_project_and_dataset], a function from strings to
    strings, and the constructors of its classes. *)
Inductive Call : Type :=
| CWarn (msg : string)
| CAuthDefault (scopes : list string) (client_id client_secret : string)
    (credentials_cache : CredentialsCache) (use_local_webserver : bool)
| CNewClient (project : string) (credentials : Credentials)
    (application_name : option string)
| CQuery (c : Client) (stmt : string) (job_config : QueryJobConfig)
    (project : string)
| CJobResult (job : QueryJob)
| CToDataframe (job : QueryJob)
| CGetTable (c : Client) (table : TableArg)
| CGetDataset (c : Client) (ref : DatasetReference)
| CListDatasets (c : Client) (project : string)
| CListTables (c : Client) (ref : DatasetReference)
| CSuperTable (name : string) (database : option string)
| CDescription (cur : BigQueryCursor)
| CToAst (expr : Expr) (limit : Limit) (params : Params)
| CCompile (ast : QueryAST)
| CLog (sql : string)
| CAstSchema (ast : QueryAST) (kwargs : Kwargs)
| CApplyTo (schema : Schema) (df : DataFrame)
| CResultHandler (h : ResultHandler) (result : PyObj)
| CBigqueryParam (param : Expr) (value : PyObj)
| CFieldToDtype (col : Field)
| CSchema (names : list string) (types : list DType)
| CInfer (table : BqTable)
| CRenamePartitioned (t : TableExpr) (table : BqTable)
    (partition_column : option string)
| CFilterWithLike (values : list string) (like : option string)
| CTableReferenceFromString (table_id : string)
| CBaseCompile (expr : Expr) (params : Params) (kwargs : Kwargs).

Record Event : Type := mkEvent {
  ev_call : Call;
  ev_raised : option PyExc
}.

(** Calls that go through the client handle or its jobs: these are the ones
    that reach the BigQuery service. *)
Definition is_client_call (c : Call) : bool :=
  match c with
  | CQuery _ _ _ _ | CJobResult _ | CToDataframe _ | CGetTable _ _
  | CGetDataset _ _ | CListDatasets _ _ | CListTables _ _
  | CDescription _ => true
  | _ => false
  end.

(** Calls of [connect] that authenticate or open the client. *)
Definition is_auth_call (c : Call) : bool :=
  match c with
  | CAuthDefault _ _ _ _ _ | CNewClient _ _ _ => true
  | _ => false
  end.

Definition is_network_call (c : Call) : bool :=
  is_client_call c || is_auth_call c.

(** ** The collaborators

    What the imported names do is not in this module.  Calls that talk to a
    service read and change the outside world; the computations of the
    expression framework and of the sibling module [client] are functions
    that may raise. *)
Record Externals (World : Type) : Type := mkExternals {
  (* [from .client import parse_project_and_dataset]:
     returns [(data_project, billing_project, dataset)]. *)
  parse_project_and_dataset :
    string -> string -> Result (string * string * string);
  pydata_google_auth_default :
    list string -> string -> string -> CredentialsCache -> bool ->
    World -> Result (Credentials * string) * World;
  bq_Client :
    string -> Credentials -> option string -> World -> Result Client * World;
  client_query :
    Client -> string -> QueryJobConfig -> string ->
    World -> Result QueryJob * World;
  query_result : QueryJob -> World -> Result unit * World;
  query_to_dataframe : QueryJob -> World -> Result DataFrame * World;
  client_get_table : Client -> TableArg -> World -> Result BqTable * World;
  client_get_dataset :
    Client -> DatasetReference -> World -> Result unit * World;
  client_list_datasets :
    Client -> string -> World -> Result (list string) * World;
  client_list_tables :
    Client -> DatasetReference -> World -> Result (list string) * World;
  super_table :
    string -> option string -> World -> Result TableExpr * World;
  cursor_description :
    BigQueryCursor -> World -> Result (list Field) * World;
  to_ast_ensure_limit : Expr -> Limit -> Params -> Result QueryAST;
  ast_compile : QueryAST -> Result string;
  ast_schema : QueryAST -> Kwargs -> Result Schema;
  schema_apply_to : Schema -> DataFrame -> Result PyObj;
  result_handler_call : ResultHandler -> PyObj -> Result PyObj;
  bigquery_param : Expr -> PyObj -> Result QueryParameter;
  bigquery_field_to_ibis_dtype : Field -> Result DType;
  sch_Schema : list string -> list DType -> Result Schema;
  sch_infer : BqTable -> Result Schema;
  rename_partitioned_column :
    TableExpr -> BqTable -> option string -> Result TableExpr;
  filter_with_like : list string -> option string -> Result (list string);
  TableReference_from_string : string -> Result TableReference;
  base_compile : Expr -> Params -> Kwargs -> Result string;
  bq_version : string
}.

Arguments parse_project_and_dataset {World} _ _ _.
Arguments pydata_google_auth_default {World} _ _ _ _ _ _ _.
Arguments bq_Client {World} _ _ _ _ _.
Arguments client_query {World} _ _ _ _ _ _.
Arguments query_result {World} _ _ _.
Arguments query_to_dataframe {World} _ _ _.
Arguments client_get_table {World} _ _ _ _.
Arguments client_get_dataset {World} _ _ _ _.
Arguments client_list_datasets {World} _ _ _ _.
Arguments client_list_tables {World} _ _ _ _.
Arguments super_table {World} _ _ _ _.
Arguments cursor_description {World} _ _ _.
Arguments to_ast_ensure_limit {World} _ _ _ _.
Arguments ast_compile {World} _ _.
Arguments ast_schema {World} _ _ _.
Arguments schema_apply_to {World} _ _ _.
Arguments result_handler_call {World} _ _ _.
Arguments bigquery_param {World} _ _ _.
Arguments bigquery_field_to_ibis_dtype {World} _ _.
Arguments sch_Schema {World} _ _ _.
Arguments sch_infer {World} _ _.
Arguments rename_partitioned_column {World} _ _ _ _.
Arguments filter_with_like {World} _ _ _.
Arguments TableReference_from_string {World} _ _.
Arguments base_compile {World} _ _ _ _.
Arguments bq_version {World} _.

(** ** The monad of methods *)

Record State (World : Type) : Type := mkState {
  self_ : Backend;
  world : World;
  trace : list Event
}.
Arguments mkState {World} _ _ _.
Arguments self_ {World} _.
Arguments world {World} _.
Arguments trace {World} _.

Definition M (World A : Type) : Type :=
  State World -> Result A * State World.

Definition ret {World A} (a : A) : M World A := fun st => (Ok a, st).

Definition raise {World A} (e : PyExc) : M World A := fun st => (Raise e, st).

Definition bind {World A B} (m : M World A) (k : A -> M World B) : M World B :=
  fun st =>
    match m st with
    | (Ok a, st') => k a st'
    | (Raise e, st') => (Raise e, st')
    end.

Declare Scope py_scope.
Delimit Scope py_scope with py.
Notation "x <- m ;; k" := (bind m (fun x => k))
  (at level 61, m at next level, right associativity) : py_scope.
Notation "' pat <- m ;; k" := (bind m (fun x => match x with pat => k end))
  (at level 61, pat pattern, m at next level, right associativity) : py_scope.
Notation "m ;;; k" := (bind m (fun _ => k))
  (at level 61, right associativity) : py_scope.
Open Scope py_scope.

(** Reading an instance attribute: [self.attr]. *)
Definition getattr {World A} (attr : string) (proj : Backend -> option A)
  : M World A :=
  fun st =>
    match proj (self_ st) with
    | Some v => (Ok v, st)
    | None => (Raise (AttributeError attr), st)
    end.

(** Assigning instance attributes: the state's [self] is replaced. *)
Definition setself {World} (f : Backend -> Backend) : M World unit :=
  fun st => (Ok tt, mkState (f (self_ st)) (world st) (trace st)).

Definition log_event {World} (c : Call) (e : option PyExc) (st : State World)
  (w : World) : State World :=
  mkState (self_ st) w (trace st ++ [mkEvent c e]).

(** A call that talks to the outside world. *)
Definition call {World A} (c : Call) (f : World -> Result A * World)
  : M World A :=
  fun st =>
    let '(r, w) := f (world st) in (r, log_event c (raised r) st w).

(** A call that computes in-process. *)
Definition compute {World A} (c : Call) (r : Result A) : M World A :=
  fun st => (r, log_event c (raised r) st (world st)).

(** A call that only leaves a note ([warnings.warn], [self._log]). *)
Definition note {World} (c : Call) : M World unit :=
  fun st => (Ok tt, log_event c None st (world st)).

(** [try: body  except NotFound: handler] *)
Definition try_except_NotFound {World A} (body handler : M World A)
  : M World A :=
  fun st =>
    match body st with
    | (Raise (NotFound _), st') => handler st'
    | other => other
    end.

(** A comprehension or loop that calls [f] on each element in order. *)
Fixpoint for_each {World A B} (f : A -> M World B) (xs : list A)
  : M World (list B) :=
  match xs with
  | [] => ret []
  | x :: rest =>
      y <- f x ;;
      ys <- for_each f rest ;;
      ret (y :: ys)
  end.

(** A function on values that may raise: no call is logged. *)
Definition lift {World A} (r : Result A) : M World A := fun st => (r, st).

(** ** Module constants *)

Definition SCOPES : list string :=
  ["https://www.googleapis.com/auth/bigquery"].

Definition EXTERNAL_DATA_SCOPES : list string :=
  ["https://www.googleapis.com/auth/bigquery";
   "https://www.googleapis.com/auth/cloud-platform";
   "https://www.googleapis.com/auth/drive"].

Definition CLIENT_ID : string :=
  "546535678771-gvffde27nd83kfl6qbrnletqvkdmsese.apps.googleusercontent.com".

Definition CLIENT_SECRET : string := "iU5ohAF2qcqrujegE3hQ1cPt".

Definition msg_database_no_dataset : string :=
  "Unable to determine BigQuery dataset. Call client.database('my_dataset') or set_database('my_dataset') to assign your client a dataset.".

Definition msg_exists_database_deprecated : string :=
  "`client.exists_database(name)` is deprecated, and will be removed in a future version of Ibis. Use `name in client.list_databases()` instead.".

Definition msg_exists_table_deprecated : string :=
  "`client.exists_table(name)` is deprecated, and will be removed in a future version of Ibis. Use `name in client.list_tables()` instead.".

Definition msg_unpack : string :=
  "not enough values to unpack (expected 2, got 1)".

(** [kwargs.pop(key, None)] *)
Definition kwargs_pop (key : string) (kwargs : Kwargs) : Kwargs :=
  filter (fun kv => negb (String.eqb (fst kv) key)) kwargs.

(** Binding [**kwargs] against [raw_sql(self, query, results=False,
    params=None)] when [query] and [params] are already given: [results] is
    the only keyword left to take, any other one is a [TypeError] (its
    message here is the keyword). *)
Fixpoint bind_raw_sql_kwargs (kwargs : Kwargs) (results : PyObj)
  : Result PyObj :=
  match kwargs with
  | [] => Ok results
  | (k, v) :: rest =>
      if String.eqb k "results" then bind_raw_sql_kwargs rest v
      else Raise (TypeError k)
  end.

(** ** The methods of [Backend] *)

Section Methods.
Context {World : Type}.
Variable E : Externals World.

(** [Backend.connect]: authenticates unless credentials are supplied and
    returns a new instance; [self] is only used for its class. *)
Definition connect
    (project_id : option string) (dataset_id : string)
    (credentials : option Credentials) (application_name : option string)
    (auth_local_webserver auth_external_data : bool)
    (auth_cache : string) (partition_column_arg : option string)
  : M World Backend :=
  let default_project_id := "" in
  '(credentials, default_project_id) <-
    match credentials with
    | None =>
        let scopes :=
          if auth_external_data then EXTERNAL_DATA_SCOPES else SCOPES in
        credentials_cache <-
          (if String.eqb auth_cache "default"
           then ret (ReadWriteCredentialsCache "ibis.json")
           else if String.eqb auth_cache "reauth"
           then ret (WriteOnlyCredentialsCache "ibis.json")
           else if String.eqb auth_cache "none"
           then ret NOOP
           else raise (ValueError
                  (msg_auth_cache_pre ++ auth_cache ++ msg_auth_cache_post))) ;;
        call (CAuthDefault scopes CLIENT_ID CLIENT_SECRET credentials_cache
                auth_local_webserver)
             (pydata_google_auth_default E scopes CLIENT_ID CLIENT_SECRET
                credentials_cache auth_local_webserver)
    | Some c => ret (c, default_project_id)
    end ;;
  let project_id := opt_or project_id default_project_id in
  let new_backend := Backend_new in
  '(dp, bp, ds) <- lift (parse_project_and_dataset E project_id dataset_id) ;;
  let new_backend :=
    {| data_project := Some dp; billing_project := Some bp;
       dataset := Some ds; client := client new_backend;
       partition_column := partition_column new_backend |} in
  c <- call (CNewClient bp credentials application_name)
            (bq_Client E bp credentials application_name) ;;
  let new_backend :=
    {| data_project := data_project new_backend;
       billing_project := billing_project new_backend;
       dataset := dataset new_backend; client := Some c;
       partition_column := partition_column new_backend |} in
  let new_backend :=
    {| data_project := data_project new_backend;
       billing_project := billing_project new_backend;
       dataset := dataset new_backend; client := client new_backend;
       partition_column := Some partition_column_arg |} in
  ret new_backend.

(** [Backend._parse_project_and_dataset] *)
Definition _parse_project_and_dataset (dataset_arg : option string)
  : M World (string * string) :=
  undetermined <-
    (if opt_truthy dataset_arg then ret false
     else d <- getattr "dataset" dataset ;; ret (negb (str_truthy d))) ;;
  if (undetermined : bool) then raise (ValueError msg_no_dataset)
  else
    bp <- getattr "billing_project" billing_project ;;
    arg <-
      (if opt_truthy dataset_arg then ret (opt_or dataset_arg "")
       else
         dp <- getattr "data_project" data_project ;;
         ds <- getattr "dataset" dataset ;;
         ret (dp ++ "." ++ ds)) ;;
    '(project, _, dataset') <- lift (parse_project_and_dataset E bp arg) ;;
    ret (project, dataset').

(** [Backend.project_id] *)
Definition project_id : M World string := getattr "data_project" data_project.

(** [Backend.dataset_id] *)
Definition dataset_id : M World string := getattr "dataset" dataset.

(** [Backend._fully_qualified_name] *)
Definition _fully_qualified_name (name : string) (database : option string)
  : M World string :=
  '(default_project, default_dataset) <-
    _parse_project_and_dataset database ;;
  let parts := split_dot name in
  if Nat.eqb (length parts) 3 then ret name
  else if Nat.eqb (length parts) 2 then ret (default_project ++ "." ++ name)
  else if Nat.eqb (length parts) 1
  then ret (default_project ++ "." ++ default_dataset ++ "." ++ name)
  else raise (ValueError (msg_too_many ++ name)).

(** [Backend.table] *)
Definition table (name : string) (database : option string) : M World TableExpr :=
  t <- call (CSuperTable name database) (super_table E name database) ;;
  table_id <- _fully_qualified_name name database ;;
  c <- getattr "client" client ;;
  bq_table <- call (CGetTable c (ById table_id))
                   (client_get_table E c (ById table_id)) ;;
  pc <- getattr "partition_column" partition_column ;;
  compute (CRenamePartitioned t bq_table pc)
          (rename_partitioned_column E t bq_table pc).

(** [Backend._adapt_types] *)
Definition _adapt_types (descr : list Field) : M World (list string * list DType) :=
  adapted_types <-
    for_each (fun col => compute (CFieldToDtype col)
                           (bigquery_field_to_ibis_dtype E col)) descr ;;
  ret (map field_name descr, adapted_types).

(** [Backend._execute] *)
Definition _execute (stmt : string) (results : PyObj)
    (query_parameters_arg : option (list QueryParameter))
  : M World BigQueryCursor :=
  let job_config := QueryJobConfig_new in
  let job_config :=
    {| query_parameters :=
         match query_parameters_arg with
         | Some (p :: ps) => p :: ps
         | _ => []
         end;
       use_legacy_sql := use_legacy_sql job_config |} in
  let job_config :=
    {| query_parameters := query_parameters job_config;
       use_legacy_sql := Some false |} in
  c <- getattr "client" client ;;
  bp <- getattr "billing_project" billing_project ;;
  q <- call (CQuery c stmt job_config bp)
            (client_query E c stmt job_config bp) ;;
  call (CJobResult q) (query_result E q) ;;;
  ret (mkBigQueryCursor q).

(** [Backend._get_schema_using_query]; entering and leaving the cursor's
    [with] block does nothing. *)
Definition _get_schema_using_query (limited_query : string) : M World Schema :=
  cur <- _execute limited_query (PyBool true) None ;;
  descr <- call (CDescription cur) (cursor_description E cur) ;;
  '(names, ibis_types) <- _adapt_types descr ;;
  compute (CSchema names ibis_types) (sch_Schema E names ibis_types).

(** [Backend.raw_sql] *)
Definition raw_sql (sql : string) (results : PyObj) (params : Params)
  : M World BigQueryCursor :=
  query_parameters <-
    for_each (fun pv => compute (CBigqueryParam (fst pv) (snd pv))
                          (bigquery_param E (fst pv) (snd pv)))
             (match params with Some items => items | None => [] end) ;;
  _execute sql results (Some query_parameters).

(** [Backend.current_database] *)
Definition current_database : M World string := getattr "dataset" dataset.

(** [Backend.database] *)
Definition database (name : option string) : M World BigQueryDatabase :=
  undetermined <-
    match name with
    | None => d <- getattr "dataset" dataset ;; ret (negb (str_truthy d))
    | Some _ => ret false
    end ;;
  if (undetermined : bool) then raise (ValueError msg_database_no_dataset)
  else
    n <- (if opt_truthy name then ret (opt_or name "")
          else getattr "dataset" dataset) ;;
    ret (mkBigQueryDatabase n).

(** [Backend.fetch_from_cursor] *)
Definition fetch_from_cursor (cursor : BigQueryCursor) (schema : Schema)
  : M World PyObj :=
  df <- call (CToDataframe (query cursor))
             (query_to_dataframe E (query cursor)) ;;
  compute (CApplyTo schema df) (schema_apply_to E schema df).

(** [Backend.execute] *)
Definition execute (expr : Expr) (params : Params) (limit : Limit)
    (kwargs : Kwargs) : M World PyObj :=
  let kwargs := kwargs_pop "timecontext" kwargs in
  query_ast <- compute (CToAst expr limit params)
                       (to_ast_ensure_limit E expr limit params) ;;
  sql <- compute (CCompile query_ast) (ast_compile E query_ast) ;;
  note (CLog sql) ;;;
  results <- lift (bind_raw_sql_kwargs kwargs (PyBool false)) ;;
  cursor <- raw_sql sql results params ;;
  schema <- compute (CAstSchema query_ast kwargs)
                    (ast_schema E query_ast kwargs) ;;
  result <- fetch_from_cursor cursor schema ;;
  let declared :=
    match dml query_ast with
    | Some s => stmt_result_handler s
    | None => ast_result_handler query_ast
    end in
  match declared with
  | Some _ =>
      match dml query_ast with
      | None => raise (AttributeError "dml")
      | Some s =>
          match stmt_result_handler s with
          | None => raise (AttributeError "result_handler")
          | Some h => compute (CResultHandler h result)
                              (result_handler_call E h result)
          end
      end
  | None => ret result
  end.

(** [try: body  except NotFound: return False  else: return True], the
    shape of the two existence checks. *)
Definition found {A} (body : M World A) : M World bool :=
  try_except_NotFound (body ;;; ret true) (ret false).

(** [Backend.exists_database]; [client.dataset(dataset, project=project)]
    builds a dataset reference. *)
Definition exists_database (name : option string) : M World bool :=
  note (CWarn msg_exists_database_deprecated) ;;;
  '(project, dataset') <- _parse_project_and_dataset name ;;
  c <- getattr "client" client ;;
  let dataset_ref := mkDatasetReference project dataset' in
  found (call (CGetDataset c dataset_ref)
              (client_get_dataset E c dataset_ref)).

(** [Backend.exists_table] *)
Definition exists_table (name : string) (database : option string)
  : M World bool :=
  note (CWarn msg_exists_table_deprecated) ;;;
  table_id <- _fully_qualified_name name database ;;
  c <- getattr "client" client ;;
  found (call (CGetTable c (ById table_id))
              (client_get_table E c (ById table_id))).

(** [Backend.get_schema] *)
Definition get_schema (name : string) (database : option string)
  : M World Schema :=
  table_id <- _fully_qualified_name name database ;;
  table_ref <- compute (CTableReferenceFromString table_id)
                       (TableReference_from_string E table_id) ;;
  c <- getattr "client" client ;;
  bq_table <- call (CGetTable c (ByRef table_ref))
                   (client_get_table E c (ByRef table_ref)) ;;
  compute (CInfer bq_table) (sch_infer E bq_table).

(** [Backend._get_table_schema]; unpacking a one-element list into
    [dataset, table] is a [ValueError], and the assertion that follows
    cannot fail. *)
Definition _get_table_schema (qualified_name : string) : M World Schema :=
  match rsplit_dot1 qualified_name with
  | [dataset'; table'] => get_schema table' (Some dataset')
  | _ => raise (ValueError msg_unpack)
  end.

(** [Backend.list_databases] *)
Definition list_databases (like : option string) : M World (list string) :=
  c <- getattr "client" client ;;
  dp <- getattr "data_project" data_project ;;
  results <- call (CListDatasets c dp) (client_list_datasets E c dp) ;;
  compute (CFilterWithLike results like) (filter_with_like E results like).

(** [Backend.list_tables] *)
Definition list_tables (like database : option string)
  : M World (list string) :=
  '(project, dataset') <- _parse_project_and_dataset database ;;
  let dataset_ref := mkDatasetReference project dataset' in
  c <- getattr "client" client ;;
  result <- call (CListTables c dataset_ref)
                 (client_list_tables E c dataset_ref) ;;
  compute (CFilterWithLike result like) (filter_with_like E result like).

(** [Backend.set_database]: the one method that assigns to [self]. *)
Definition set_database (name : option string) : M World unit :=
  '(dp, ds) <- _parse_project_and_dataset name ;;
  setself (fun b =>
    {| data_project := Some dp; billing_project := billing_project b;
       dataset := Some ds; client := client b;
       partition_column := partition_column b |}).

(** [Backend.version] *)
Definition version : M World string := ret (bq_version E).

(** The module function [compile]: compiles on a fresh [Backend()]. *)
Definition module_compile (expr : Expr) (params : Params) (kwargs : Kwargs)
  : M World string :=
  compute (CBaseCompile expr params kwargs) (base_compile E expr params kwargs).

(** The module function [connect]: [Backend().connect(...)]. *)
Definition module_connect
    (project_id : option string) (dataset_id : string)
    (credentials : option Credentials) (application_name : option string)
    (auth_local_webserver auth_external_data : bool)
    (auth_cache : string) (partition_column_arg : option string)
  : M World Backend :=
  connect project_id dataset_id credentials application_name
    auth_local_webserver auth_external_data auth_cache partition_column_arg.

(** *** Every operation, as one type

    What a caller can invoke on an instance, with its arguments, and what
    it gets back. *)
Inductive Op : Type :=
| OpConnect (project_id : option string) (dataset_id : string)
    (credentials : option Credentials) (application_name : option string)
    (auth_local_webserver auth_external_data : bool)
    (auth_cache : string) (partition_column_arg : option string)
| OpParseProjectAndDataset (dataset_arg : option string)
| OpProjectId
| OpDatasetId
| OpTable (name : string) (database : option string)
| OpFullyQualifiedName (name : string) (database : option string)
| OpGetSchemaUsingQuery (limited_query : string)
| OpGetTableSchema (qualified_name : string)
| OpAdaptTypes (descr : list Field)
| OpExecuteStmt (stmt : string) (results : PyObj)
    (query_parameters_arg : option (list QueryParameter))
| OpRawSql (sql : string) (results : PyObj) (params : Params)
| OpCurrentDatabase
| OpDatabase (name : option string)
| OpExecute (expr : Expr) (params : Params) (limit : Limit) (kwargs : Kwargs)
| OpExistsDatabase (name : option string)
| OpExistsTable (name : string) (database : option string)
| OpFetchFromCursor (cursor : BigQueryCursor) (schema : Schema)
| OpGetSchema (name : string) (database : option string)
| OpListDatabases (like : option string)
| OpListTables (like database : option string)
| OpSetDatabase (name : option string)
| OpVersion.

Inductive Value : Type :=
| VNone
| VBool (b : bool)
| VStr (s : string)
| VStrs (l : list string)
| VPair (p : string * string)
| VAdapted (p : list string * list DType)
| VBackend (b : Backend)
| VTableExpr (t : TableExpr)
| VSchema (s : Schema)
| VCursor (c : BigQueryCursor)
| VDatabase (d : BigQueryDatabase)
| VObj (o : PyObj).

Definition fmap {A B} (f : A -> B) (m : M World A) : M World B :=
  x <- m ;; ret (f x).

Definition run (op : Op) : M World Value :=
  match op with
  | OpConnect p d c a lw ed ac pc =>
      fmap VBackend (connect p d c a lw ed ac pc)
  | OpParseProjectAndDataset d => fmap VPair (_parse_project_and_dataset d)
  | OpProjectId => fmap VStr project_id
  | OpDatasetId => fmap VStr dataset_id
  | OpTable n d => fmap VTableExpr (table n d)
  | OpFullyQualifiedName n d => fmap VStr (_fully_qualified_name n d)
  | OpGetSchemaUsingQuery q => fmap VSchema (_get_schema_using_query q)
  | OpGetTableSchema q => fmap VSchema (_get_table_schema q)
  | OpAdaptTypes descr => fmap VAdapted (_adapt_types descr)
  | OpExecuteStmt s r q => fmap VCursor (_execute s r q)
  | OpRawSql s r p => fmap VCursor (raw_sql s r p)
  | OpCurrentDatabase => fmap VStr current_database
  | OpDatabase n => fmap VDatabase (database n)
  | OpExecute e p l k => fmap VObj (execute e p l k)
  | OpExistsDatabase n => fmap VBool (exists_database n)
  | OpExistsTable n d => fmap VBool (exists_table n d)
  | OpFetchFromCursor c s => fmap VObj (fetch_from_cursor c s)
  | OpGetSchema n d => fmap VSchema (get_schema n d)
  | OpListDatabases l => fmap VStrs (list_databases l)
  | OpListTables l d => fmap VStrs (list_tables l d)
  | OpSetDatabase n => fmap (fun _ => VNone) (set_database n)
  | OpVersion => fmap VStr version
  end.
End Methods.

(** ** The helper of the sibling module *)

(** Modelled from the spec: [parse_project_and_dataset] of the sibling module
    [client], which is not among the sources.  Section 4.1 says of a database
    string that it "is itself split on the single separator into (project,
    dataset) using the billing project as project-fallback"; [connect]
    unpacks the result as [(data_project, billing_project, dataset)].  The
    spec speaks of one separator only: a string with more than one is
    outside what it describes, and this model raises there. *)
Definition parse_project_and_dataset_spec (project dataset_arg : string)
  : Result (string * string * string) :=
  match split_dot dataset_arg with
  | [d] => Ok (project, project, d)
  | [p; d] => Ok (p, project, d)
  | _ => Raise (ValueError (dataset_arg ++ " is not a BigQuery dataset."))
  end.

(** ** A concrete outside world

    A world to run the methods in: the world is a counter that numbers the
    handles the services give out.  The one table that does not exist is
    [p.d.missing], the one dataset that does not exist is [p.missing]. *)
Definition demo_get_table (t : TableArg) (w : nat) : Result BqTable * nat :=
  match t with
  | ById table_id =>
      if String.eqb table_id "p.d.missing"
      then (Raise (NotFound "Not found: Table p:d.missing"), S w)
      else (Ok (BqTableHandle w), S w)
  | ByRef _ => (Ok (BqTableHandle w), S w)
  end.

Definition demo_get_dataset (ref : DatasetReference) (w : nat)
  : Result unit * nat :=
  if String.eqb (dsref_dataset ref) "missing"
  then (Raise (NotFound "Not found: Dataset p:missing"), S w)
  else (Ok tt, S w).

Definition demo_externals : Externals nat :=
  {| parse_project_and_dataset := parse_project_and_dataset_spec;
     pydata_google_auth_default := fun _ _ _ _ _ w =>
       (Ok (CredentialsHandle w, "p"), S w);
     bq_Client := fun _ _ _ w => (Ok (ClientHandle w), S w);
     client_query := fun _ _ _ _ w => (Ok (QueryJobHandle w), S w);
     query_result := fun _ w => (Ok tt, S w);
     query_to_dataframe := fun _ w => (Ok (DataFrameHandle w), S w);
     client_get_table := fun _ t w => demo_get_table t w;
     client_get_dataset := fun _ ref w => demo_get_dataset ref w;
     client_list_datasets := fun _ _ w => (Ok ["d"; "d2"], S w);
     client_list_tables := fun _ _ w => (Ok ["orders"], S w);
     super_table := fun _ _ w => (Ok (TableExprHandle w), S w);
     cursor_description := fun _ w => (Ok [mkField "x" 0], S w);
     to_ast_ensure_limit := fun e _ _ =>
       match e with
       | ExprHandle 0 =>
           Ok (mkQueryAST 0 (Some (mkStatement 0 None)) None)
       | ExprHandle n =>
           Ok (mkQueryAST n
                 (Some (mkStatement n (Some (ResultHandlerHandle n)))) None)
       end;
     ast_compile := fun _ => Ok "SELECT 1 AS x";
     ast_schema := fun _ _ => Ok (SchemaHandle 0);
     schema_apply_to := fun _ _ => Ok (PyObjHandle 1);
     result_handler_call := fun _ _ => Ok (PyObjHandle 2);
     bigquery_param := fun _ _ => Ok (QueryParameterHandle 0);
     bigquery_field_to_ibis_dtype := fun _ => Ok (DTypeHandle 0);
     sch_Schema := fun _ _ => Ok (SchemaHandle 1);
     sch_infer := fun _ => Ok (SchemaHandle 2);
     rename_partitioned_column := fun t _ _ => Ok t;
     filter_with_like := fun l _ => Ok l;
     TableReference_from_string := fun _ => Ok (TableReferenceHandle 0);
     base_compile := fun _ _ _ => Ok "SELECT 1 AS x";
     bq_version := "2.0.0" |}.

(** A connected instance with project [p], dataset [d], and the state it
    starts in. *)
Definition demo_backend : Backend :=
  {| data_project := Some "p"; billing_project := Some "p";
     dataset := Some "d"; client := Some (ClientHandle 0);
     partition_column := Some (Some "PARTITIONTIME") |}.

Definition demo_state : State nat := mkState demo_backend 1 [].

(** The same instance with no default dataset, as [connect] leaves it when
    no [dataset_id] is given. *)
Definition demo_backend_no_dataset : Backend :=
  {| data_project := Some "p"; billing_project := Some "p";
     dataset := Some ""; client := Some (ClientHandle 0);
     partition_column := Some (Some "PARTITIONTIME") |}.

(** A fresh instance, before [connect]. *)
Definition unconnected_state : State nat := mkState Backend_new 0 [].


(** The same world with a parameter conversion that refuses [None] and a
    column conversion that refuses the column numbered 9. *)
Definition demo_strict_externals : Externals nat :=
  {| parse_project_and_dataset := parse_project_and_dataset_spec;
     pydata_google_auth_default := pydata_google_auth_default demo_externals;
     bq_Client := bq_Client demo_externals;
     client_query := client_query demo_externals;
     query_result := query_result demo_externals;
     query_to_dataframe := query_to_dataframe demo_externals;
     client_get_table := client_get_table demo_externals;
     client_get_dataset := client_get_dataset demo_externals;
     client_list_datasets := client_list_datasets demo_externals;
     client_list_tables := client_list_tables demo_externals;
     super_table := super_table demo_externals;
     cursor_description := cursor_description demo_externals;
     to_ast_ensure_limit := fun e _ _ =>
       match e with
       | ExprHandle 5 =>
           Ok (mkQueryAST 5 None (Some (ResultHandlerHandle 5)))
       | ExprHandle n => Ok (mkQueryAST n None None)
       end;
     ast_compile := ast_compile demo_externals;
     ast_schema := ast_schema demo_externals;
     schema_apply_to := schema_apply_to demo_externals;
     result_handler_call := result_handler_call demo_externals;
     bigquery_param := fun _ v =>
       match v with
       | PyNone => Raise (LibraryError "NotImplementedError" "NoneType")
       | _ => Ok (QueryParameterHandle 0)
       end;
     bigquery_field_to_ibis_dtype := fun col =>
       match field_id col with
       | 9 => Raise (LibraryError "KeyError" "GEOGRAPHY")
       | n => Ok (DTypeHandle n)
       end;
     sch_Schema := sch_Schema demo_externals;
     sch_infer := sch_infer demo_externals;
     rename_partitioned_column := rename_partitioned_column demo_externals;
     filter_with_like := filter_with_like demo_externals;
     TableReference_from_string := TableReference_from_string demo_externals;
     base_compile := base_compile demo_externals;
     bq_version := "2.0.0" |}.

(** ** Notions the properties are stated with *)

(** A computation is [quiet] when it leaves the instance, the world and the
    log as they were: it assigns no attribute and makes no call. *)
Definition quiet {World A} (m : M World A) : Prop :=
  forall st, snd (m st) = st.

(** [query_parameters or []] *)
Definition parameters_or_empty (qp : option (list QueryParameter))
  : list QueryParameter :=
  match qp with Some l => l | None => [] end.

(** The job configuration [_execute] builds. *)
Definition job_config_of (qp : option (list QueryParameter)) : QueryJobConfig :=
  {| query_parameters := parameters_or_empty qp;
     use_legacy_sql := Some false |}.

(** An event of a call that returned. *)
Definition returned (c : Call) : Event := mkEvent c None.

(** An event of a call that raised. *)
Definition failed (c : Call) (e : PyExc) : Event := mkEvent c (Some e).

(** A computation [keeps_self] when the instance comes out of it with the
    attributes it went in with. *)
Definition keeps_self {World A} (m : M World A) : Prop :=
  forall st, self_ (snd (m st)) = self_ st.

(** The items of [(params or {}).items()]. *)
Definition param_items (params : Params) : list (Expr * PyObj) :=
  match params with Some items => items | None => [] end.

(** The conversion of one parameter, logged. *)
Definition param_event (pv : Expr * PyObj) : Event :=
  returned (CBigqueryParam (fst pv) (snd pv)).









(** The operations that reach for data of the warehouse: those whose body,
    or the body of a method they call, calls the client or a query job. *)
Definition data_accessing (op : Op) : bool :=
  match op with
  | OpTable _ _ | OpExecute _ _ _ _ | OpRawSql _ _ _ | OpExecuteStmt _ _ _
  | OpGetSchemaUsingQuery _ | OpGetSchema _ _ | OpGetTableSchema _
  | OpListDatabases _ | OpListTables _ _ | OpExistsDatabase _
  | OpExistsTable _ _ | OpFetchFromCursor _ _ => true
  | _ => false
  end.

(** A log without a call through the client or a query job. *)
Definition no_client_call (events : list Event) : Prop :=
  Forall (fun ev => is_client_call (ev_call ev) = false) events.


(** A log without a call to the client or to the authentication library. *)
Definition no_network (events : list Event) : Prop :=
  Forall (fun ev => is_network_call (ev_call ev) = false) events.

(** The exceptions of an operation on a fresh instance: the interpreter's
    [AttributeError] for the connection attribute that was read, unless a
    step before that read raised: a logged call, the binding of keyword
    arguments, or the unpacking of a name without a separator. *)
Definition unconnected_error (e : PyExc) (new : list Event) : Prop :=
  e = AttributeError "client" \/
  e = AttributeError "dataset" \/
  e = AttributeError "billing_project" \/
  (exists k, e = TypeError k) \/
  e = ValueError msg_unpack \/
  Exists (fun ev => ev_raised ev = Some e) new.

(** A computation is [offline] when, on a fresh instance, it makes no
    network call and raises only such exceptions; with [must_fail] it also
    never returns. *)
Definition offline {World A} (must_fail : bool) (m : M World A) : Prop :=
  forall st, self_ st = Backend_new ->
    self_ (snd (m st)) = Backend_new /\
    exists new,
      trace (snd (m st)) = (trace st ++ new)%list /\
      no_network new /\
      match fst (m st) with
      | Raise e => unconnected_error e new
      | Ok _ => must_fail = false
      end.

(** An instance with the five attributes of [connect] assigned. *)
Definition connected (b : Backend) : Prop :=
  data_project b <> None /\ billing_project b <> None /\
  dataset b <> None /\ client b <> None /\ partition_column b <> None.

(** A logged lookup of a table by id string names the table in full: the
    id has at least three components. *)
Definition qualified_lookup (ev : Event) : Prop :=
  match ev_call ev with
  | CGetTable _ (ById table_id) => 3 <= length (split_dot table_id)
  | _ => True
  end.

(** A computation [keeps_log P] when every event it adds to a log of
    events satisfying [P] satisfies [P]. *)
Definition keeps_log {World A} (P : Event -> Prop) (m : M World A) : Prop :=
  forall st, Forall P (trace st) -> Forall P (trace (snd (m st))).

(** The conversion of one column descriptor, logged. *)
Definition column_event (col : Field) : Event :=
  returned (CFieldToDtype col).

(** A keyword [execute] passes on that [raw_sql] does not take. *)
Definition unexpected_keyword (k : string) : bool :=
  negb (String.eqb k "timecontext") && negb (String.eqb k "results").

(** * Properties *)

(** ** Strings *)

Lemma split_on_not_nil (sep : ascii) (s : string) : split_on sep s <> [].
Proof.
  induction s as [|c rest IH]; simpl; [discriminate|].
  destruct (Ascii.eqb c sep); [discriminate|].
  destruct (split_on sep rest); [contradiction|discriminate].
Qed.

Lemma split_dot_length_pos (s : string) : 1 <= length (split_dot s).
Proof.
  unfold split_dot. pose proof (split_on_not_nil dot s) as H.
  destruct (split_on dot s); [contradiction|simpl; lia].
Qed.

(** Splitting a string glued with the separator gives the components of
    both halves. *)
Lemma split_on_glue (sep : ascii) (a b : string) :
  split_on sep (a ++ String sep b) = (split_on sep a ++ split_on sep b)%list.
Proof.
  induction a as [|c rest IH]; simpl.
  - rewrite Ascii.eqb_refl. reflexivity.
  - destruct (Ascii.eqb c sep); [now rewrite IH|].
    rewrite IH. pose proof (split_on_not_nil sep rest) as H.
    destruct (split_on sep rest); [contradiction|reflexivity].
Qed.

Lemma prefix_append (a b : string) : prefix a (a ++ b) = true.
Proof.
  induction a as [|c rest IH]; simpl; [destruct b; reflexivity|].
  destruct (ascii_dec c c); [assumption|congruence].
Qed.

(** ** Computations that touch nothing *)

Lemma quiet_ret {World A} (a : A) : quiet (@ret World A a).
Proof. intros st. reflexivity. Qed.

Lemma quiet_raise {World A} (e : PyExc) : quiet (@raise World A e).
Proof. intros st. reflexivity. Qed.

Lemma quiet_lift {World A} (r : Result A) : quiet (@lift World A r).
Proof. intros st. reflexivity. Qed.

Lemma quiet_getattr {World A} attr (proj : Backend -> option A) :
  quiet (@getattr World A attr proj).
Proof. intros st. unfold getattr. destruct (proj (self_ st)); reflexivity. Qed.

Lemma quiet_bind {World A B} (m : M World A) (k : A -> M World B) :
  quiet m -> (forall a, quiet (k a)) -> quiet (bind m k).
Proof.
  intros Hm Hk st. unfold bind. specialize (Hm st).
  destruct (m st) as [[a|e] st']; simpl in *; subst; [apply Hk|reflexivity].
Qed.

Lemma quiet_if {World A} (b : bool) (m1 m2 : M World A) :
  quiet m1 -> quiet m2 -> quiet (if b then m1 else m2).
Proof. destruct b; auto. Qed.

Create HintDb quiet_db.
#[export] Hint Resolve quiet_ret quiet_raise quiet_lift quiet_getattr quiet_if
  : quiet_db.

Ltac quiet_step :=
  first [ apply quiet_bind; [|intros ?]
        | match goal with |- quiet (match ?x with _ => _ end) => destruct x end
        | solve [auto with quiet_db] ].

Lemma quiet_parse_project_and_dataset {World} (E : Externals World) d :
  quiet (_parse_project_and_dataset E d).
Proof. unfold _parse_project_and_dataset. repeat quiet_step. Qed.

Lemma quiet_fully_qualified_name {World} (E : Externals World) name d :
  quiet (_fully_qualified_name E name d).
Proof.
  unfold _fully_qualified_name.
  apply quiet_bind; [apply quiet_parse_project_and_dataset|].
  intros [dp dd]. repeat quiet_step.
Qed.

(** Once the defaults are known, the name alone decides the outcome. *)
Lemma fully_qualified_name_unfold {World} (E : Externals World)
    name d st dp dd :
  fst (_parse_project_and_dataset E d st) = Ok (dp, dd) ->
  _fully_qualified_name E name d st =
    (if Nat.eqb (length (split_dot name)) 3 then Ok name
     else if Nat.eqb (length (split_dot name)) 2 then Ok (dp ++ "." ++ name)
     else if Nat.eqb (length (split_dot name)) 1
          then Ok (dp ++ "." ++ dd ++ "." ++ name)
          else Raise (ValueError (msg_too_many ++ name)), st).
Proof.
  intros H. pose proof (quiet_parse_project_and_dataset E d st) as Hq.
  unfold _fully_qualified_name, bind.
  destruct (_parse_project_and_dataset E d st) as [r st']; simpl in *.
  subst r st'.
  repeat match goal with |- context [if ?b then _ else _] =>
    destruct b end; reflexivity.
Qed.

(** The defaults fail before the name is looked at. *)
Lemma fully_qualified_name_defaults_fail {World} (E : Externals World)
    name d st e :
  fst (_parse_project_and_dataset E d st) = Raise e ->
  _fully_qualified_name E name d st = (Raise e, st).
Proof.
  intros H. pose proof (quiet_parse_project_and_dataset E d st) as Hq.
  unfold _fully_qualified_name, bind.
  destruct (_parse_project_and_dataset E d st) as [r st']; simpl in *.
  now subst r st'.
Qed.

(** ** Identifier resolution *)

(** C1. With the default project and dataset resolved, a name of three
    components is returned as it is, a name of two is prefixed with the
    default project, a name of one with the default project and dataset, and
    a name of four or more raises the too-many-components [ValueError], the
    spec's [InvalidIdentifier]. *)
Theorem fully_qualified_name_by_components {World} (E : Externals World)
    (name : string) (database : option string) (st : State World)
    (default_project default_dataset : string) :
  fst (_parse_project_and_dataset E database st)
    = Ok (default_project, default_dataset) ->
  (length (split_dot name) = 3 ->
     _fully_qualified_name E name database st = (Ok name, st)) /\
  (length (split_dot name) = 2 ->
     _fully_qualified_name E name database st
       = (Ok (default_project ++ "." ++ name), st)) /\
  (length (split_dot name) = 1 ->
     _fully_qualified_name E name database st
       = (Ok (default_project ++ "." ++ default_dataset ++ "." ++ name), st)) /\
  (4 <= length (split_dot name) ->
     _fully_qualified_name E name database st
       = (Raise (ValueError (msg_too_many ++ name)), st) /\
     error_kind (ValueError (msg_too_many ++ name)) = Some InvalidIdentifier).
Proof.
  intros H. rewrite (fully_qualified_name_unfold E name database st _ _ H).
  split; [|split; [|split]]; intros Hn.
  - now rewrite Hn.
  - now rewrite Hn.
  - now rewrite Hn.
  - split.
    + destruct (length (split_dot name)) as [|[|[|[|n]]]]; try lia; reflexivity.
    + unfold error_kind. now rewrite prefix_append.
Qed.

Lemma fully_qualified_name_by_components_witness :
  _fully_qualified_name demo_externals "orders" None demo_state
    = (Ok "p.d.orders", demo_state) /\
  _fully_qualified_name demo_externals "d2.orders" None demo_state
    = (Ok "p.d2.orders", demo_state) /\
  _fully_qualified_name demo_externals "p2.d2.orders" None demo_state
    = (Ok "p2.d2.orders", demo_state) /\
  _fully_qualified_name demo_externals "a.p2.d2.orders" None demo_state
    = (Raise (ValueError "Got too many components in table name: a.p2.d2.orders"),
       demo_state).
Proof.
  assert (H : fst (_parse_project_and_dataset demo_externals None demo_state)
              = Ok ("p", "d")) by reflexivity.
  split; [|split; [|split]].
  - apply (fully_qualified_name_by_components demo_externals "orders" None
             demo_state "p" "d" H). reflexivity.
  - apply (fully_qualified_name_by_components demo_externals "d2.orders" None
             demo_state "p" "d" H). reflexivity.
  - apply (fully_qualified_name_by_components demo_externals "p2.d2.orders"
             None demo_state "p" "d" H). reflexivity.
  - apply (fully_qualified_name_by_components demo_externals "a.p2.d2.orders"
             None demo_state "p" "d" H). simpl. lia.
Defined.

(** Without an explicit database and without a default dataset, the
    defaults cannot be resolved. *)
Lemma parse_project_and_dataset_undetermined {World} (E : Externals World)
    (database : option string) (st : State World) :
  opt_truthy database = false ->
  dataset (self_ st) = Some "" ->
  _parse_project_and_dataset E database st
    = (Raise (ValueError msg_no_dataset), st).
Proof.
  intros Hd Hs. unfold _parse_project_and_dataset, bind, getattr.
  rewrite Hd, Hs. reflexivity.
Qed.

(** With an explicit database, the helper is given the billing project and
    the database string. *)
Lemma parse_project_and_dataset_explicit {World} (E : Externals World)
    (d bp : string) (st : State World) :
  str_truthy d = true ->
  billing_project (self_ st) = Some bp ->
  _parse_project_and_dataset E (Some d) st
    = (match parse_project_and_dataset E bp d with
       | Ok (project, _, dataset') => Ok (project, dataset')
       | Raise e => Raise e
       end, st).
Proof.
  intros Hd Hb. destruct d as [|c d]; [discriminate|].
  unfold _parse_project_and_dataset, bind, getattr, lift, ret.
  simpl. rewrite Hb.
  destruct (parse_project_and_dataset E bp _) as [[[p b] ds]|e]; reflexivity.
Qed.

(** C2. With no explicit database and no default dataset on the connection,
    resolving the defaults raises the cannot-determine-dataset [ValueError],
    the spec's [UnresolvedDataset].  With an explicit database, and the
    helper behaving as the spec describes it, the database string is split
    at its separator into project and dataset, and a string without a
    separator takes the billing project as its project. *)
Theorem parse_project_and_dataset_defaults {World} (E : Externals World)
    (st : State World) :
  (forall database,
     opt_truthy database = false ->
     dataset (self_ st) = Some "" ->
     _parse_project_and_dataset E database st
       = (Raise (ValueError msg_no_dataset), st)) /\
  error_kind (ValueError msg_no_dataset) = Some UnresolvedDataset /\
  (forall d bp,
     (forall a b, parse_project_and_dataset E a b
                  = parse_project_and_dataset_spec a b) ->
     str_truthy d = true ->
     billing_project (self_ st) = Some bp ->
     (forall project dataset',
        split_dot d = [project; dataset'] ->
        _parse_project_and_dataset E (Some d) st
          = (Ok (project, dataset'), st)) /\
     (forall dataset',
        split_dot d = [dataset'] ->
        _parse_project_and_dataset E (Some d) st = (Ok (bp, dataset'), st))).
Proof.
  split; [|split].
  - intros database. apply parse_project_and_dataset_undetermined.
  - reflexivity.
  - intros d bp Hspec Hd Hb. split.
    + intros project dataset' Hs.
      rewrite (parse_project_and_dataset_explicit E d bp st Hd Hb), Hspec.
      unfold parse_project_and_dataset_spec. now rewrite Hs.
    + intros dataset' Hs.
      rewrite (parse_project_and_dataset_explicit E d bp st Hd Hb), Hspec.
      unfold parse_project_and_dataset_spec. now rewrite Hs.
Qed.

Lemma parse_project_and_dataset_defaults_witness :
  _parse_project_and_dataset demo_externals None
      (mkState demo_backend_no_dataset 1 [])
    = (Raise (ValueError msg_no_dataset), mkState demo_backend_no_dataset 1 []) /\
  _parse_project_and_dataset demo_externals (Some "q.e") demo_state
    = (Ok ("q", "e"), demo_state) /\
  _parse_project_and_dataset demo_externals (Some "e") demo_state
    = (Ok ("p", "e"), demo_state).
Proof.
  split; [|split].
  - apply (parse_project_and_dataset_defaults demo_externals
             (mkState demo_backend_no_dataset 1 [])); reflexivity.
  - apply (parse_project_and_dataset_defaults demo_externals demo_state)
      with (bp := "p"); reflexivity.
  - apply (parse_project_and_dataset_defaults demo_externals demo_state)
      with (bp := "p"); reflexivity.
Defined.

(** C10. The defaults are resolved before the name is looked at: with no
    explicit database and no default dataset, every name fails with the
    cannot-determine-dataset [ValueError], a name of three components
    included, which is then not returned as it is. *)
Theorem fully_qualified_name_needs_default_dataset {World}
    (E : Externals World) (name : string) (database : option string)
    (st : State World) :
  opt_truthy database = false ->
  dataset (self_ st) = Some "" ->
  _fully_qualified_name E name database st
    = (Raise (ValueError msg_no_dataset), st) /\
  (length (split_dot name) = 3 ->
   fst (_fully_qualified_name E name database st) <> Ok name).
Proof.
  intros Hd Hs.
  assert (H : _fully_qualified_name E name database st
              = (Raise (ValueError msg_no_dataset), st)).
  { apply fully_qualified_name_defaults_fail.
    now rewrite parse_project_and_dataset_undetermined. }
  split; [exact H|]. intros _. rewrite H. discriminate.
Qed.

Lemma fully_qualified_name_needs_default_dataset_witness :
  _fully_qualified_name demo_externals "p2.d2.orders" None
      (mkState demo_backend_no_dataset 1 [])
    = (Raise (ValueError "Unable to determine BigQuery dataset."),
       mkState demo_backend_no_dataset 1 []).
Proof.
  apply (fully_qualified_name_needs_default_dataset demo_externals
           "p2.d2.orders" None (mkState demo_backend_no_dataset 1 []));
    reflexivity.
Defined.

(** The outcome of resolving the defaults is a function of the three
    attributes read, the argument and the helper. *)
Lemma parse_project_and_dataset_reads {W1 W2}
    (E1 : Externals W1) (E2 : Externals W2) d
    (st1 : State W1) (st2 : State W2) :
  (forall a b, parse_project_and_dataset E1 a b
               = parse_project_and_dataset E2 a b) ->
  billing_project (self_ st1) = billing_project (self_ st2) ->
  data_project (self_ st1) = data_project (self_ st2) ->
  dataset (self_ st1) = dataset (self_ st2) ->
  fst (_parse_project_and_dataset E1 d st1)
    = fst (_parse_project_and_dataset E2 d st2).
Proof.
  intros Hp Hb Hdp Hds.
  destruct st1 as [[dp1 bp1 ds1 c1 pc1] w1 t1].
  destruct st2 as [[dp2 bp2 ds2 c2 pc2] w2 t2].
  simpl in Hb, Hdp, Hds. subst dp2 bp2 ds2.
  unfold _parse_project_and_dataset, bind, getattr, lift, ret, raise.
  cbn [self_ billing_project data_project dataset fst].
  destruct (opt_truthy d);
    repeat (cbn; match goal with
      | |- context [parse_project_and_dataset E1 ?a ?b] => rewrite (Hp a b)
      | |- context [match parse_project_and_dataset E2 ?a ?b with _ => _ end] =>
          destruct (parse_project_and_dataset E2 a b) as [[[? ?] ?]|?]
      | |- context [str_truthy ?x] => destruct (str_truthy x)
      | |- context [match ?x with _ => _ end] => is_var x; destruct x
      end); reflexivity.
Qed.

(** C3. Identifier resolution is pure: two calls with the same name and
    database, on instances with the same billing project, data project and
    default dataset, return the same result or raise the same exception,
    whatever the client handle, the outside world and the other
    collaborators are; and each call leaves the instance, the world and the
    log of calls as they were, so no attribute is assigned and no call, to
    the network or elsewhere, is made. *)
Theorem fully_qualified_name_pure {W1 W2}
    (E1 : Externals W1) (E2 : Externals W2)
    (name : string) (database : option string)
    (st1 : State W1) (st2 : State W2) :
  (forall a b, parse_project_and_dataset E1 a b
               = parse_project_and_dataset E2 a b) ->
  billing_project (self_ st1) = billing_project (self_ st2) ->
  data_project (self_ st1) = data_project (self_ st2) ->
  dataset (self_ st1) = dataset (self_ st2) ->
  fst (_fully_qualified_name E1 name database st1)
    = fst (_fully_qualified_name E2 name database st2) /\
  fst (_parse_project_and_dataset E1 database st1)
    = fst (_parse_project_and_dataset E2 database st2) /\
  snd (_fully_qualified_name E1 name database st1) = st1 /\
  snd (_fully_qualified_name E2 name database st2) = st2 /\
  snd (_parse_project_and_dataset E1 database st1) = st1.
Proof.
  intros Hp Hb Hdp Hds.
  pose proof (parse_project_and_dataset_reads E1 E2 database st1 st2
                Hp Hb Hdp Hds) as Hr.
  split; [|split; [exact Hr|split; [|split]]].
  - destruct (fst (_parse_project_and_dataset E2 database st2))
      as [[dp dd]|e] eqn:H2.
    + rewrite (fully_qualified_name_unfold E1 name database st1 dp dd Hr).
      rewrite (fully_qualified_name_unfold E2 name database st2 dp dd H2).
      reflexivity.
    + rewrite (fully_qualified_name_defaults_fail E1 name database st1 e Hr).
      rewrite (fully_qualified_name_defaults_fail E2 name database st2 e H2).
      reflexivity.
  - apply quiet_fully_qualified_name.
  - apply quiet_fully_qualified_name.
  - apply quiet_parse_project_and_dataset.
Qed.

Lemma fully_qualified_name_pure_witness :
  fst (_fully_qualified_name demo_externals "orders" None demo_state)
    = fst (_fully_qualified_name demo_externals "orders" None
             (mkState
                {| data_project := Some "p"; billing_project := Some "p";
                   dataset := Some "d"; client := None;
                   partition_column := None |} 7
                [mkEvent (CLog "earlier") None])).
Proof.
  apply (fully_qualified_name_pure demo_externals demo_externals "orders" None
           demo_state
           (mkState
              {| data_project := Some "p"; billing_project := Some "p";
                 dataset := Some "d"; client := None;
                 partition_column := None |} 7
              [mkEvent (CLog "earlier") None])); reflexivity.
Defined.

(** ** The query executor *)

(** What [_execute] does on a connected instance, by the outcome of the two
    calls it makes. *)
Lemma execute_stmt_unfold {World} (E : Externals World)
    (stmt : string) (results : PyObj)
    (qp : option (list QueryParameter))
    (st : State World) (c : Client) (bp : string) :
  client (self_ st) = Some c ->
  billing_project (self_ st) = Some bp ->
  _execute E stmt results qp st =
    match client_query E c stmt (job_config_of qp) bp (world st) with
    | (Raise e, w1) =>
        (Raise e,
         mkState (self_ st) w1
           (trace st ++ [failed (CQuery c stmt (job_config_of qp) bp) e]))
    | (Ok job, w1) =>
        match query_result E job w1 with
        | (Raise e, w2) =>
            (Raise e,
             mkState (self_ st) w2
               (trace st ++ [returned (CQuery c stmt (job_config_of qp) bp);
                             failed (CJobResult job) e]))
        | (Ok _, w2) =>
            (Ok (mkBigQueryCursor job),
             mkState (self_ st) w2
               (trace st ++ [returned (CQuery c stmt (job_config_of qp) bp);
                             returned (CJobResult job)]))
        end
    end.
Proof.
  intros Hc Hb.
  unfold _execute, bind, getattr, call, log_event, ret.
  rewrite Hc, Hb. cbn.
  replace (match qp with
           | Some (p :: ps) => p :: ps
           | _ => []
           end) with (parameters_or_empty qp)
    by (destruct qp as [[|? ?]|]; reflexivity).
  fold (job_config_of qp).
  destruct (client_query E c stmt _ bp (world st)) as [[job|e] w1];
    [|reflexivity].
  cbn. destruct (query_result E job w1) as [[u|e] w2]; cbn;
    rewrite <- app_assoc; reflexivity.
Qed.




(** ** Connecting *)

(** With credentials supplied, [connect] never looks at [auth_cache]. *)
Lemma connect_with_credentials_ignores_auth_cache {World}
    (E : Externals World) project_id dataset_id c application_name
    lw ed pc (auth_cache1 auth_cache2 : string) (st : State World) :
  connect E project_id dataset_id (Some c) application_name lw ed
    auth_cache1 pc st
  = connect E project_id dataset_id (Some c) application_name lw ed
      auth_cache2 pc st.
Proof. reflexivity. Qed.

(** C6, as the code has it.  When no credentials are supplied, an
    [auth_cache] other than ['default'], ['reauth'] and ['none'] makes
    [connect] raise the unexpected-value [ValueError], the spec's
    [InvalidConfiguration], and the state is as it was: nothing was called,
    so no authentication or network call came before it. *)
Theorem connect_rejects_unknown_auth_cache {World} (E : Externals World)
    (project_id : option string) (dataset_id : string)
    (application_name : option string)
    (auth_local_webserver auth_external_data : bool)
    (auth_cache : string) (partition_column_arg : option string)
    (st : State World) :
  auth_cache <> "default" ->
  auth_cache <> "reauth" ->
  auth_cache <> "none" ->
  connect E project_id dataset_id None application_name
      auth_local_webserver auth_external_data auth_cache
      partition_column_arg st
    = (Raise (ValueError
                (msg_auth_cache_pre ++ auth_cache ++ msg_auth_cache_post)), st)
  /\ error_kind (ValueError
                   (msg_auth_cache_pre ++ auth_cache ++ msg_auth_cache_post))
     = Some InvalidConfiguration.
Proof.
  intros H1 H2 H3. split.
  - unfold connect, bind, raise.
    apply String.eqb_neq in H1, H2, H3. rewrite H1, H2, H3. reflexivity.
  - unfold error_kind.
    replace (prefix msg_too_many
               (msg_auth_cache_pre ++ auth_cache ++ msg_auth_cache_post))
      with false by (vm_compute; reflexivity).
    replace (prefix msg_no_dataset
               (msg_auth_cache_pre ++ auth_cache ++ msg_auth_cache_post))
      with false by (vm_compute; reflexivity).
    now rewrite prefix_append.
Qed.

Lemma connect_rejects_unknown_auth_cache_witness :
  connect demo_externals (Some "p") "d" None None true false "bogus"
      (Some "PARTITIONTIME") unconnected_state
    = (Raise (ValueError
                "Got unexpected value for auth_cache = 'bogus'. Expected one of 'default', 'reauth', or 'none'."),
       unconnected_state).
Proof.
  apply (connect_rejects_unknown_auth_cache demo_externals (Some "p") "d" None
           true false "bogus" (Some "PARTITIONTIME") unconnected_state);
    discriminate.
Defined.

(** C6, as the spec states it, fails: with credentials supplied, an
    unknown [auth_cache] goes unnoticed and [connect] returns a connected
    instance. *)
Lemma connect_unknown_auth_cache_with_credentials :
  "bogus" <> "default" /\ "bogus" <> "reauth" /\ "bogus" <> "none" /\
  connect demo_externals (Some "p") "d" (Some (CredentialsHandle 0)) None
      true false "bogus" (Some "PARTITIONTIME") unconnected_state
    = (Ok {| data_project := Some "p"; billing_project := Some "p";
             dataset := Some "d"; client := Some (ClientHandle 0);
             partition_column := Some (Some "PARTITIONTIME") |},
       mkState Backend_new 1
         [mkEvent (CNewClient "p" (CredentialsHandle 0) None) None]).
Proof. repeat split; discriminate. Qed.

(** ** The connection state *)

Lemma keeps_quiet {World A} (m : M World A) : quiet m -> keeps_self m.
Proof. intros H st. now rewrite H. Qed.

Lemma keeps_ret {World A} (a : A) : keeps_self (@ret World A a).
Proof. intros st. reflexivity. Qed.

Lemma keeps_raise {World A} (e : PyExc) : keeps_self (@raise World A e).
Proof. intros st. reflexivity. Qed.

Lemma keeps_lift {World A} (r : Result A) : keeps_self (@lift World A r).
Proof. intros st. reflexivity. Qed.

Lemma keeps_getattr {World A} attr (proj : Backend -> option A) :
  keeps_self (@getattr World A attr proj).
Proof. apply keeps_quiet, quiet_getattr. Qed.

Lemma keeps_call {World A} c (f : World -> Result A * World) :
  keeps_self (call c f).
Proof. intros st. unfold call. destruct (f (world st)). reflexivity. Qed.

Lemma keeps_compute {World A} c (r : Result A) :
  keeps_self (@compute World A c r).
Proof. intros st. reflexivity. Qed.

Lemma keeps_note {World} c : keeps_self (@note World c).
Proof. intros st. reflexivity. Qed.

Lemma keeps_bind {World A B} (m : M World A) (k : A -> M World B) :
  keeps_self m -> (forall a, keeps_self (k a)) -> keeps_self (bind m k).
Proof.
  intros Hm Hk st. unfold bind. specialize (Hm st).
  destruct (m st) as [[a|e] st']; simpl in *; [|assumption].
  now rewrite Hk.
Qed.

Lemma keeps_for_each {World A B} (f : A -> M World B) (xs : list A) :
  (forall x, keeps_self (f x)) -> keeps_self (for_each f xs).
Proof.
  intros Hf. induction xs as [|x rest IH]; simpl.
  - apply keeps_ret.
  - apply keeps_bind; [apply Hf|]. intros y.
    apply keeps_bind; [apply IH|]. intros ys. apply keeps_ret.
Qed.

Lemma keeps_try_except_NotFound {World A} (body handler : M World A) :
  keeps_self body -> keeps_self handler ->
  keeps_self (try_except_NotFound body handler).
Proof.
  intros Hb Hh st. unfold try_except_NotFound. specialize (Hb st).
  destruct (body st) as [[a|[]] st']; simpl in *; try assumption.
  now rewrite Hh.
Qed.

Lemma keeps_fmap {World A B} (f : A -> B) (m : M World A) :
  keeps_self m -> keeps_self (fmap f m).
Proof.
  intros H. unfold fmap. apply keeps_bind; [assumption|].
  intros a. apply keeps_ret.
Qed.

Ltac keeps_step :=
  first [ apply keeps_ret | apply keeps_raise | apply keeps_lift
        | apply keeps_getattr | apply keeps_call | apply keeps_compute
        | apply keeps_note
        | apply keeps_for_each; intros ?
        | apply keeps_try_except_NotFound
        | apply keeps_fmap
        | apply keeps_bind; [|intros ?]
        | match goal with
          | |- keeps_self (match ?x with _ => _ end) => destruct x
          end
        | assumption ].

Ltac keeps_auto := cbv zeta; repeat keeps_step.

Lemma keeps_parse_project_and_dataset {World} (E : Externals World) d :
  keeps_self (_parse_project_and_dataset E d).
Proof. apply keeps_quiet, quiet_parse_project_and_dataset. Qed.

Lemma keeps_fully_qualified_name {World} (E : Externals World) n d :
  keeps_self (_fully_qualified_name E n d).
Proof. apply keeps_quiet, quiet_fully_qualified_name. Qed.

Lemma keeps_connect {World} (E : Externals World) p d c a lw ed ac pc :
  keeps_self (connect E p d c a lw ed ac pc).
Proof. unfold connect. keeps_auto. Qed.

Lemma keeps_execute_stmt {World} (E : Externals World) s r q :
  keeps_self (_execute E s r q).
Proof. unfold _execute. keeps_auto. Qed.

Lemma keeps_raw_sql {World} (E : Externals World) s r p :
  keeps_self (raw_sql E s r p).
Proof.
  unfold raw_sql. apply keeps_bind; [keeps_auto|].
  intros ?. apply keeps_execute_stmt.
Qed.

Lemma keeps_fetch_from_cursor {World} (E : Externals World) c s :
  keeps_self (fetch_from_cursor E c s).
Proof. unfold fetch_from_cursor. keeps_auto. Qed.

Lemma keeps_get_schema {World} (E : Externals World) n d :
  keeps_self (get_schema E n d).
Proof.
  unfold get_schema. apply keeps_bind; [apply keeps_fully_qualified_name|].
  intros ?. keeps_auto.
Qed.

Lemma keeps_execute {World} (E : Externals World) e p l k :
  keeps_self (execute E e p l k).
Proof.
  unfold execute. cbv zeta.
  do 4 (apply keeps_bind; [keeps_auto|intros ?]).
  apply keeps_bind; [apply keeps_raw_sql|intros ?].
  apply keeps_bind; [keeps_auto|intros ?].
  apply keeps_bind; [apply keeps_fetch_from_cursor|intros ?].
  keeps_auto.
Qed.

(** Every operation but [set_database] keeps the instance. *)
Lemma keeps_run {World} (E : Externals World) (op : Op) :
  (forall name, op <> OpSetDatabase name) -> keeps_self (run E op).
Proof.
  intros Hop. destruct op; simpl; apply keeps_fmap;
    try solve [exfalso; eapply Hop; reflexivity].
  - apply keeps_connect.
  - apply keeps_parse_project_and_dataset.
  - apply keeps_getattr.
  - apply keeps_getattr.
  - unfold table. apply keeps_bind; [keeps_auto|intros ?].
    apply keeps_bind; [apply keeps_fully_qualified_name|intros ?]. keeps_auto.
  - apply keeps_fully_qualified_name.
  - unfold _get_schema_using_query, _adapt_types.
    apply keeps_bind; [apply keeps_execute_stmt|intros ?]. keeps_auto.
  - unfold _get_table_schema.
    repeat match goal with
      | |- keeps_self (match ?x with _ => _ end) => destruct x
      end; first [apply keeps_raise | apply keeps_get_schema].
  - unfold _adapt_types. keeps_auto.
  - apply keeps_execute_stmt.
  - apply keeps_raw_sql.
  - apply keeps_getattr.
  - unfold database. keeps_auto.
  - apply keeps_execute.
  - unfold exists_database, found. apply keeps_bind; [keeps_auto|intros ?].
    apply keeps_bind; [apply keeps_parse_project_and_dataset|intros ?].
    keeps_auto.
  - unfold exists_table, found. apply keeps_bind; [keeps_auto|intros ?].
    apply keeps_bind; [apply keeps_fully_qualified_name|intros ?].
    keeps_auto.
  - apply keeps_fetch_from_cursor.
  - apply keeps_get_schema.
  - unfold list_databases. keeps_auto.
  - unfold list_tables.
    apply keeps_bind; [apply keeps_parse_project_and_dataset|intros ?].
    keeps_auto.
  - apply keeps_ret.
Qed.

(** What [set_database] does to the state. *)
Lemma set_database_unfold {World} (E : Externals World) name
    (st : State World) :
  set_database E name st =
    match fst (_parse_project_and_dataset E name st) with
    | Ok (dp, ds) =>
        (Ok tt,
         mkState
           {| data_project := Some dp;
              billing_project := billing_project (self_ st);
              dataset := Some ds; client := client (self_ st);
              partition_column := partition_column (self_ st) |}
           (world st) (trace st))
    | Raise e => (Raise e, st)
    end.
Proof.
  pose proof (quiet_parse_project_and_dataset E name st) as Hq.
  unfold set_database, bind, setself.
  destruct (_parse_project_and_dataset E name st) as [[[dp ds]|e] st'];
    simpl in *; subst st'; reflexivity.
Qed.

(** C5. [set_database] assigns the data project and the default dataset,
    to what the name resolves to, and leaves the billing project, the
    partition column and the client handle as they were; when the name
    does not resolve it assigns nothing.  Every other operation, [connect]
    included (it builds a new instance), leaves all five attributes of the
    instance as they were. *)
Theorem only_set_database_assigns {World} (E : Externals World)
    (op : Op) (st : State World) :
  billing_project (self_ (snd (run E op st))) = billing_project (self_ st) /\
  partition_column (self_ (snd (run E op st)))
    = partition_column (self_ st) /\
  client (self_ (snd (run E op st))) = client (self_ st) /\
  ((forall name, op <> OpSetDatabase name) ->
   self_ (snd (run E op st)) = self_ st) /\
  (forall name, op = OpSetDatabase name ->
   match fst (_parse_project_and_dataset E name st) with
   | Ok (dp, ds) =>
       data_project (self_ (snd (run E op st))) = Some dp /\
       dataset (self_ (snd (run E op st))) = Some ds
   | Raise _ => self_ (snd (run E op st)) = self_ st
   end).
Proof.
  assert (Hset : forall name,
    run E (OpSetDatabase name) st =
      match fst (_parse_project_and_dataset E name st) with
      | Ok (dp, ds) =>
          (Ok VNone,
           mkState
             {| data_project := Some dp;
                billing_project := billing_project (self_ st);
                dataset := Some ds; client := client (self_ st);
                partition_column := partition_column (self_ st) |}
             (world st) (trace st))
      | Raise e => (Raise e, st)
      end).
  { intros name. simpl. unfold fmap, bind. rewrite set_database_unfold.
    destruct (fst (_parse_project_and_dataset E name st)) as [[dp ds]|e];
      reflexivity. }
  assert (Hother : (forall name, op <> OpSetDatabase name) ->
                   self_ (snd (run E op st)) = self_ st).
  { intros Hop. now apply keeps_run. }
  assert (Hcases : (exists name, op = OpSetDatabase name) \/
                   (forall name, op <> OpSetDatabase name)).
  { destruct op; try (right; intros ?; discriminate).
    left. eexists. reflexivity. }
  destruct Hcases as [[name ->]|Hop].
  - rewrite Hset.
    repeat split;
      try (destruct (fst (_parse_project_and_dataset E name st))
             as [[dp ds]|e]; reflexivity).
    + intros Hno. exfalso. now apply (Hno name).
    + intros name' Heq. injection Heq as <-.
      destruct (fst (_parse_project_and_dataset E name st)) as [[dp ds]|e];
        [split|]; reflexivity.
  - rewrite (Hother Hop). repeat split.
    intros name Heq. exfalso. now apply (Hop name).
Qed.

Lemma only_set_database_assigns_witness :
  data_project
    (self_ (snd (run demo_externals (OpSetDatabase (Some "q.e")) demo_state)))
    = Some "q" /\
  dataset
    (self_ (snd (run demo_externals (OpSetDatabase (Some "q.e")) demo_state)))
    = Some "e" /\
  self_ (snd (run demo_externals
                (OpExecute (ExprHandle 0) None LimitDefault []) demo_state))
    = demo_backend.
Proof.
  pose proof (only_set_database_assigns demo_externals
                (OpSetDatabase (Some "q.e")) demo_state) as [_ [_ [_ [_ H]]]].
  specialize (H (Some "q.e") eq_refl). cbn in H. destruct H as [H1 H2].
  pose proof (only_set_database_assigns demo_externals
                (OpExecute (ExprHandle 0) None LimitDefault []) demo_state)
    as [_ [_ [_ [H3 _]]]].
  split; [exact H1|split; [exact H2|]].
  apply H3. intros name. discriminate.
Defined.

(** ** The execute pipeline *)

Lemma bind_ok {World A B} (m : M World A) (k : A -> M World B) st a st' :
  m st = (Ok a, st') -> bind m k st = k a st'.
Proof. intros H. unfold bind. now rewrite H. Qed.

Lemma bind_raise {World A B} (m : M World A) (k : A -> M World B) st e st' :
  m st = (Raise e, st') -> bind m k st = (Raise e, st').
Proof. intros H. unfold bind. now rewrite H. Qed.

Lemma compute_ok {World A} c (r : Result A) a (st : State World) :
  r = Ok a ->
  compute c r st
    = (Ok a, mkState (self_ st) (world st) (trace st ++ [returned c])).
Proof. intros ->. reflexivity. Qed.

Lemma call_ok {World A} c (f : World -> Result A * World) a w
    (st : State World) :
  f (world st) = (Ok a, w) ->
  call c f st = (Ok a, mkState (self_ st) w (trace st ++ [returned c])).
Proof. intros H. unfold call. now rewrite H. Qed.

(** Converting the parameters, when each conversion returns. *)
Lemma for_each_params_ok {World} (E : Externals World) items qps
    (st : State World) :
  Forall2 (fun pv qp => bigquery_param E (fst pv) (snd pv) = Ok qp)
          items qps ->
  for_each (fun pv => compute (CBigqueryParam (fst pv) (snd pv))
                        (bigquery_param E (fst pv) (snd pv))) items st
    = (Ok qps,
       mkState (self_ st) (world st) (trace st ++ map param_event items)).
Proof.
  intros H. revert st. induction H as [|pv qp items qps Hpv _ IH]; intros st.
  - simpl. unfold ret. rewrite app_nil_r. now destruct st.
  - simpl. erewrite bind_ok by (apply compute_ok; exact Hpv).
    erewrite bind_ok by apply IH.
    unfold ret. cbn. rewrite <- app_assoc. reflexivity.
Qed.

(** [raw_sql], when the conversions, the submission and the wait return. *)
Lemma raw_sql_ok {World} (E : Externals World) sql results params qps
    (st : State World) c bp job w1 w2 :
  client (self_ st) = Some c ->
  billing_project (self_ st) = Some bp ->
  Forall2 (fun pv qp => bigquery_param E (fst pv) (snd pv) = Ok qp)
          (param_items params) qps ->
  client_query E c sql (job_config_of (Some qps)) bp (world st)
    = (Ok job, w1) ->
  query_result E job w1 = (Ok tt, w2) ->
  raw_sql E sql results params st
    = (Ok (mkBigQueryCursor job),
       mkState (self_ st) w2
         (trace st ++ map param_event (param_items params)
            ++ [returned (CQuery c sql (job_config_of (Some qps)) bp);
                returned (CJobResult job)])).
Proof.
  intros Hc Hb Hp Hq Hr. unfold raw_sql.
  erewrite bind_ok by (apply for_each_params_ok; exact Hp).
  rewrite execute_stmt_unfold with (c := c) (bp := bp) by (cbn; assumption).
  cbn [world trace self_]. rewrite Hq, Hr. rewrite <- app_assoc. reflexivity.
Qed.

(** C7. On a connected instance, when every step returns, [execute] runs
    them in this order: the expression is compiled to an AST with the limit
    it was given, the AST is rendered to SQL, the SQL (logged) goes with
    the converted parameters through the query executor, the schema of the
    result is resolved from the AST, the result is fetched from the cursor
    and the schema applied to it, and a result handler declared by the
    compiled statement is applied last; what [execute] returns is the
    outcome of the last step. *)
Theorem execute_pipeline_order {World} (E : Externals World)
    (expr : Expr) (params : Params) (limit : Limit) (kwargs : Kwargs)
    (st : State World) (c : Client) (bp : string)
    (ast : QueryAST) (s : Statement) (sql : string) (results : PyObj)
    (qps : list QueryParameter) (job : QueryJob) (schema : Schema)
    (df : DataFrame) (fetched final : PyObj) (w1 w2 w3 : World) :
  client (self_ st) = Some c ->
  billing_project (self_ st) = Some bp ->
  to_ast_ensure_limit E expr limit params = Ok ast ->
  dml ast = Some s ->
  ast_compile E ast = Ok sql ->
  bind_raw_sql_kwargs (kwargs_pop "timecontext" kwargs) (PyBool false)
    = Ok results ->
  Forall2 (fun pv qp => bigquery_param E (fst pv) (snd pv) = Ok qp)
          (param_items params) qps ->
  client_query E c sql (job_config_of (Some qps)) bp (world st)
    = (Ok job, w1) ->
  query_result E job w1 = (Ok tt, w2) ->
  ast_schema E ast (kwargs_pop "timecontext" kwargs) = Ok schema ->
  query_to_dataframe E job w2 = (Ok df, w3) ->
  schema_apply_to E schema df = Ok fetched ->
  match stmt_result_handler s with
  | Some h => result_handler_call E h fetched = Ok final
  | None => final = fetched
  end ->
  execute E expr params limit kwargs st
    = (Ok final,
       mkState (self_ st) w3
         (trace st
          ++ [returned (CToAst expr limit params);
              returned (CCompile ast);
              returned (CLog sql)]
          ++ map param_event (param_items params)
          ++ [returned (CQuery c sql (job_config_of (Some qps)) bp);
              returned (CJobResult job);
              returned (CAstSchema ast (kwargs_pop "timecontext" kwargs));
              returned (CToDataframe job);
              returned (CApplyTo schema df)]
          ++ match stmt_result_handler s with
             | Some h => [returned (CResultHandler h fetched)]
             | None => []
             end)).
Proof.
  intros Hc Hb Hast Hdml Hsql Hkw Hp Hq Hr Hschema Hdf Happly Hh.
  unfold execute. cbv zeta.
  erewrite bind_ok by (apply compute_ok; exact Hast).
  erewrite bind_ok by (apply compute_ok; exact Hsql).
  erewrite bind_ok by reflexivity.
  erewrite bind_ok by (unfold lift; rewrite Hkw; reflexivity).
  erewrite bind_ok by (eapply raw_sql_ok; eauto).
  erewrite bind_ok by (apply compute_ok; exact Hschema).
  unfold fetch_from_cursor.
  erewrite bind_ok.
  2:{ erewrite bind_ok by (apply call_ok; exact Hdf).
      apply compute_ok. exact Happly. }
  rewrite Hdml. unfold log_event. cbn [world trace self_ query].
  destruct (stmt_result_handler s) as [h|].
  - rewrite (compute_ok _ _ final _ Hh). cbn [world trace self_].
    f_equal. f_equal. repeat rewrite <- app_assoc. reflexivity.
  - subst final. unfold ret. f_equal. f_equal.
    repeat rewrite <- app_assoc. rewrite app_nil_r. reflexivity.
Qed.

Lemma execute_pipeline_order_witness :
  execute demo_externals (ExprHandle 3) (Some [(ExprHandle 7, PyNone)])
      LimitDefault [("timecontext", PyNone)] demo_state
    = (Ok (PyObjHandle 2),
       mkState demo_backend 4
         [returned (CToAst (ExprHandle 3) LimitDefault
                      (Some [(ExprHandle 7, PyNone)]));
          returned (CCompile
                      (mkQueryAST 3
                         (Some (mkStatement 3 (Some (ResultHandlerHandle 3))))
                         None));
          returned (CLog "SELECT 1 AS x");
          returned (CBigqueryParam (ExprHandle 7) PyNone);
          returned (CQuery (ClientHandle 0) "SELECT 1 AS x"
                      {| query_parameters := [QueryParameterHandle 0];
                         use_legacy_sql := Some false |} "p");
          returned (CJobResult (QueryJobHandle 1));
          returned (CAstSchema
                      (mkQueryAST 3
                         (Some (mkStatement 3 (Some (ResultHandlerHandle 3))))
                         None) []);
          returned (CToDataframe (QueryJobHandle 1));
          returned (CApplyTo (SchemaHandle 0) (DataFrameHandle 3));
          returned (CResultHandler (ResultHandlerHandle 3) (PyObjHandle 1))]).
Proof.
  apply (execute_pipeline_order demo_externals (ExprHandle 3)
           (Some [(ExprHandle 7, PyNone)]) LimitDefault
           [("timecontext", PyNone)] demo_state (ClientHandle 0) "p"
           (mkQueryAST 3 (Some (mkStatement 3 (Some (ResultHandlerHandle 3))))
              None)
           (mkStatement 3 (Some (ResultHandlerHandle 3)))
           "SELECT 1 AS x" (PyBool false) [QueryParameterHandle 0]
           (QueryJobHandle 1) (SchemaHandle 0) (DataFrameHandle 3)
           (PyObjHandle 1) (PyObjHandle 2) 2 3 4); try reflexivity.
  repeat constructor.
Defined.

(** ** Error propagation *)





































Lemma exists_table_missing_is_false :
  fst (exists_table demo_externals "missing" None demo_state) = Ok false /\
  fst (exists_table demo_externals "orders" None demo_state) = Ok true /\
  fst (exists_database demo_externals (Some "missing") demo_state) = Ok false /\
  fst (exists_database demo_externals (Some "d") demo_state) = Ok true.
Proof. repeat split. Qed.

(** ** Before [connect] *)

Lemma unconnected_error_later e new1 new2 :
  unconnected_error e new2 -> unconnected_error e (new1 ++ new2).
Proof.
  unfold unconnected_error. intros [H|[H|[H|[H|[H|H]]]]]; auto 10.
  do 5 right. apply Exists_app. now right.
Qed.

Lemma offline_weaken {World A} (m : M World A) :
  offline true m -> offline false m.
Proof.
  intros H st Hs. destruct (H st Hs) as [H1 [new [H2 [H3 H4]]]].
  split; [assumption|]. exists new. repeat split; try assumption.
  destruct (fst (m st)); [discriminate|assumption].
Qed.

Lemma offline_ret {World A} (a : A) : offline false (@ret World A a).
Proof.
  intros st Hs. split; [assumption|]. exists []. simpl.
  rewrite app_nil_r. repeat split. constructor.
Qed.

Lemma offline_raised_here {World A} (m : M World A) e :
  (forall st, self_ st = Backend_new -> m st = (Raise e, st)) ->
  unconnected_error e [] ->
  offline true m.
Proof.
  intros Hm He st Hs. rewrite (Hm st Hs). simpl. split; [assumption|].
  exists []. rewrite app_nil_r. repeat split; [constructor|assumption].
Qed.

Lemma offline_getattr_client {World} :
  offline true (@getattr World _ "client" client).
Proof.
  apply offline_raised_here with (e := AttributeError "client").
  - intros st Hs. unfold getattr. now rewrite Hs.
  - now left.
Qed.

Lemma offline_compute {World A} c (r : Result A) :
  is_network_call c = false -> offline false (@compute World A c r).
Proof.
  intros Hc st Hs. split; [assumption|].
  exists [mkEvent c (raised r)]. repeat split.
  - repeat constructor. assumption.
  - destruct r as [a|e]; simpl; [reflexivity|].
    do 5 right. now constructor.
Qed.

Lemma offline_call {World A} c (f : World -> Result A * World) :
  is_network_call c = false -> offline false (call c f).
Proof.
  intros Hc st Hs. unfold call. destruct (f (world st)) as [r w].
  split; [assumption|].
  exists [mkEvent c (raised r)]. repeat split.
  - repeat constructor. assumption.
  - destruct r as [a|e]; simpl; [reflexivity|].
    do 5 right. now constructor.
Qed.

Lemma offline_note {World} c :
  is_network_call c = false -> offline false (@note World c).
Proof.
  intros Hc st Hs. split; [assumption|].
  exists [returned c]. repeat split. repeat constructor. assumption.
Qed.

Lemma bind_raw_sql_kwargs_raises kwargs results e :
  bind_raw_sql_kwargs kwargs results = Raise e -> exists k, e = TypeError k.
Proof.
  revert results. induction kwargs as [|[k v] rest IH]; intros results; simpl.
  - discriminate.
  - destruct (String.eqb k "results"); [apply IH|].
    intros H. injection H as <-. now exists k.
Qed.

Lemma offline_lift_kwargs {World} kwargs results :
  offline false (@lift World _ (bind_raw_sql_kwargs kwargs results)).
Proof.
  intros st Hs. split; [assumption|]. exists []. simpl.
  rewrite app_nil_r. repeat split; [constructor|].
  destruct (bind_raw_sql_kwargs kwargs results) as [a|e] eqn:H;
    [reflexivity|].
  do 3 right. left. now apply bind_raw_sql_kwargs_raises in H.
Qed.

(** Once a step must fail, what follows it is never run. *)
Lemma offline_bind_fail {World A B} (m : M World A) (k : A -> M World B) :
  offline true m -> offline true (bind m k).
Proof.
  intros Hm st Hs. unfold bind.
  destruct (Hm st Hs) as [H1 [new [H2 [H3 H4]]]].
  destruct (m st) as [[a|e] st1]; simpl in *; [discriminate|].
  split; [assumption|]. exists new. now repeat split.
Qed.

Lemma offline_bind {World A B} b (m : M World A) (k : A -> M World B) :
  offline false m -> (forall a, offline b (k a)) -> offline b (bind m k).
Proof.
  intros Hm Hk st Hs. unfold bind.
  destruct (Hm st Hs) as [H1 [new1 [H2 [H3 H4]]]].
  destruct (m st) as [[a|e] st1]; simpl in *.
  - destruct (Hk a st1 H1) as [K1 [new2 [K2 [K3 K4]]]].
    split; [assumption|]. exists (new1 ++ new2)%list.
    rewrite K2, H2, app_assoc. repeat split.
    + apply Forall_app. now split.
    + destruct (fst (k a st1)); [assumption|].
      now apply unconnected_error_later.
  - split; [assumption|]. exists new1. now repeat split.
Qed.

Lemma offline_for_each {World A B} (f : A -> M World B) (xs : list A) :
  (forall x, offline false (f x)) -> offline false (for_each f xs).
Proof.
  intros Hf. induction xs as [|x rest IH]; simpl.
  - apply offline_ret.
  - apply offline_bind; [apply Hf|]. intros y.
    apply offline_bind; [apply IH|]. intros ys. apply offline_ret.
Qed.

Lemma offline_fmap {World A B} (f : A -> B) (m : M World A) :
  offline true m -> offline true (fmap f m).
Proof. apply offline_bind_fail. Qed.

(** On a fresh instance the defaults cannot be read. *)
Lemma parse_project_and_dataset_unconnected {World} (E : Externals World)
    d (st : State World) :
  self_ st = Backend_new ->
  _parse_project_and_dataset E d st
    = (Raise (AttributeError
                (if opt_truthy d then "billing_project" else "dataset")), st).
Proof.
  intros Hs. destruct st as [b w t]. simpl in Hs. subst b.
  unfold _parse_project_and_dataset, bind, getattr, ret.
  destruct (opt_truthy d); reflexivity.
Qed.

Lemma offline_parse_project_and_dataset {World} (E : Externals World) d :
  offline true (_parse_project_and_dataset E d).
Proof.
  apply offline_raised_here
    with (e := AttributeError
                 (if opt_truthy d then "billing_project" else "dataset")).
  - intros st Hs. now apply parse_project_and_dataset_unconnected.
  - unfold unconnected_error. destruct (opt_truthy d); auto.
Qed.

Lemma offline_fully_qualified_name {World} (E : Externals World) n d :
  offline true (_fully_qualified_name E n d).
Proof. apply offline_bind_fail, offline_parse_project_and_dataset. Qed.

Lemma offline_execute_stmt {World} (E : Externals World) s r q :
  offline true (_execute E s r q).
Proof. unfold _execute. cbv zeta. apply offline_bind_fail, offline_getattr_client. Qed.

Lemma offline_raw_sql {World} (E : Externals World) s r p :
  offline true (raw_sql E s r p).
Proof.
  unfold raw_sql. apply offline_bind.
  - apply offline_for_each. intros pv. now apply offline_compute.
  - intros ?. apply offline_execute_stmt.
Qed.

Lemma offline_get_schema {World} (E : Externals World) n d :
  offline true (get_schema E n d).
Proof. unfold get_schema. apply offline_bind_fail, offline_fully_qualified_name. Qed.

Lemma offline_get_table_schema {World} (E : Externals World) q :
  offline true (_get_table_schema E q).
Proof.
  unfold _get_table_schema.
  repeat match goal with
    | |- offline _ (match ?x with _ => _ end) => destruct x
    end;
    first [ apply offline_get_schema
          | apply offline_raised_here with (e := ValueError msg_unpack);
            [reflexivity|unfold unconnected_error; auto 10] ].
Qed.

Lemma offline_run {World} (E : Externals World) (op : Op) :
  data_accessing op = true ->
  (forall cursor schema, op <> OpFetchFromCursor cursor schema) ->
  offline true (run E op).
Proof.
  intros Hop Hfetch.
  destruct op; try discriminate; simpl; apply offline_fmap.
  - unfold table. apply offline_bind; [now apply offline_call|intros ?].
    apply offline_bind_fail, offline_fully_qualified_name.
  - unfold _get_schema_using_query.
    apply offline_bind_fail, offline_execute_stmt.
  - apply offline_get_table_schema.
  - apply offline_execute_stmt.
  - apply offline_raw_sql.
  - unfold execute. cbv zeta.
    apply offline_bind; [now apply offline_compute|intros ?].
    apply offline_bind; [now apply offline_compute|intros ?].
    apply offline_bind; [now apply offline_note|intros ?].
    apply offline_bind; [apply offline_lift_kwargs|intros ?].
    apply offline_bind_fail, offline_raw_sql.
  - unfold exists_database.
    apply offline_bind; [now apply offline_note|intros ?].
    apply offline_bind_fail, offline_parse_project_and_dataset.
  - unfold exists_table.
    apply offline_bind; [now apply offline_note|intros ?].
    apply offline_bind_fail, offline_fully_qualified_name.
  - exfalso. now apply (Hfetch cursor schema).
  - apply offline_get_schema.
  - unfold list_databases. apply offline_bind_fail, offline_getattr_client.
  - unfold list_tables.
    apply offline_bind_fail, offline_parse_project_and_dataset.
Qed.

(** What [fetch_from_cursor] does, on any instance: it reads no attribute
    of it. *)
Lemma fetch_from_cursor_unfold {World} (E : Externals World)
    (cursor : BigQueryCursor) (schema : Schema) (st : State World) :
  fetch_from_cursor E cursor schema st =
    match query_to_dataframe E (query cursor) (world st) with
    | (Ok df, w) =>
        (schema_apply_to E schema df,
         mkState (self_ st) w
           (trace st ++ [returned (CToDataframe (query cursor));
                         mkEvent (CApplyTo schema df)
                                 (raised (schema_apply_to E schema df))]))
    | (Raise e, w) =>
        (Raise e,
         mkState (self_ st) w
           (trace st ++ [failed (CToDataframe (query cursor)) e]))
    end.
Proof.
  unfold fetch_from_cursor, bind, call, compute, log_event.
  destruct (query_to_dataframe E (query cursor) (world st)) as [[df|e] w];
    cbn; [rewrite <- app_assoc|]; reflexivity.
Qed.

(** C8, as the code has it.  On an instance on which [connect] was never
    called, every data-accessing operation but [fetch_from_cursor] raises,
    and makes no call to the client or to the authentication library before
    it does.  The module has no error of its own for this: what is raised is
    the interpreter's [AttributeError] for the connection attribute the
    operation reads first ([client], [dataset] or [billing_project]), unless
    an earlier step raised before that read: a call of the expression
    framework, the binding of keyword arguments, or, in [_get_table_schema],
    the unpacking of a name without a separator.  [fetch_from_cursor] reads
    no attribute of the instance: given a cursor, it calls [to_dataframe] on
    the cursor's job on a fresh instance as on any other. *)
Theorem unconnected_operations_raise {World} (E : Externals World)
    (op : Op) (st : State World) :
  self_ st = Backend_new ->
  data_accessing op = true ->
  match op with
  | OpFetchFromCursor cursor schema =>
      is_client_call (CToDataframe (query cursor)) = true /\
      run E op st =
        match query_to_dataframe E (query cursor) (world st) with
        | (Ok df, w) =>
            (match schema_apply_to E schema df with
             | Ok v => Ok (VObj v)
             | Raise e => Raise e
             end,
             mkState (self_ st) w
               (trace st ++ [returned (CToDataframe (query cursor));
                             mkEvent (CApplyTo schema df)
                                     (raised (schema_apply_to E schema df))]))
        | (Raise e, w) =>
            (Raise e,
             mkState (self_ st) w
               (trace st ++ [failed (CToDataframe (query cursor)) e]))
        end
  | _ =>
      exists e new,
        fst (run E op st) = Raise e /\
        trace (snd (run E op st)) = (trace st ++ new)%list /\
        no_network new /\
        unconnected_error e new
  end.
Proof.
  intros Hs Hop.
  assert (Hothers :
    (forall cursor schema, op <> OpFetchFromCursor cursor schema) ->
    exists e new,
      fst (run E op st) = Raise e /\
      trace (snd (run E op st)) = (trace st ++ new)%list /\
      no_network new /\
      unconnected_error e new).
  { intros Hfetch.
    destruct (offline_run E op Hop Hfetch st Hs) as [_ [new [Ht [Hn He]]]].
    destruct (fst (run E op st)) as [v|e]; [discriminate|].
    exists e, new. now repeat split. }
  destruct op; try (apply Hothers; intros ? ?; discriminate).
  split; [reflexivity|].
  simpl. unfold fmap, bind, ret. rewrite fetch_from_cursor_unfold.
  destruct (query_to_dataframe E (query cursor) (world st)) as [[df|e] w];
    [|reflexivity].
  destruct (schema_apply_to E schema df); reflexivity.
Qed.

Lemma unconnected_operations_raise_witness :
  (exists e new,
     fst (run demo_externals
            (OpExecute (ExprHandle 0) None LimitDefault []) unconnected_state)
       = Raise e /\
     trace (snd (run demo_externals
                   (OpExecute (ExprHandle 0) None LimitDefault [])
                   unconnected_state)) = ([] ++ new)%list /\
     no_network new /\
     unconnected_error e new) /\
  (exists e new,
     fst (run demo_externals (OpGetTableSchema "orders") unconnected_state)
       = Raise e /\
     trace (snd (run demo_externals (OpGetTableSchema "orders")
                   unconnected_state)) = ([] ++ new)%list /\
     no_network new /\
     unconnected_error e new).
Proof.
  split.
  - apply (unconnected_operations_raise demo_externals
             (OpExecute (ExprHandle 0) None LimitDefault [])
             unconnected_state); reflexivity.
  - apply (unconnected_operations_raise demo_externals
             (OpGetTableSchema "orders") unconnected_state); reflexivity.
Defined.

(** C8, as the spec states it, fails twice over.  [execute] on a fresh
    instance raises [AttributeError], which is no [NotConnected] error; and
    [fetch_from_cursor] on a fresh instance, given the cursor of a query run
    elsewhere, does call the client and returns. *)
Lemma execute_unconnected_raises_AttributeError :
  fst (execute demo_externals (ExprHandle 0) None LimitDefault []
         unconnected_state) = Raise (AttributeError "client") /\
  error_kind (AttributeError "client") = None /\
  fetch_from_cursor demo_externals (mkBigQueryCursor (QueryJobHandle 1))
      (SchemaHandle 0) unconnected_state
    = (Ok (PyObjHandle 1),
       mkState Backend_new 1
         [returned (CToDataframe (QueryJobHandle 1));
          returned (CApplyTo (SchemaHandle 0) (DataFrameHandle 0))]) /\
  is_network_call (CToDataframe (QueryJobHandle 1)) = true.
Proof. repeat split. Qed.

(** * Further properties *)

(** ** Splitting and joining *)

Lemma split_dot_glue (a b : string) :
  split_dot (a ++ "." ++ b) = (split_dot a ++ split_dot b)%list.
Proof. unfold split_dot. apply (split_on_glue dot a b). Qed.

Lemma split_dot_glue_char (a b : string) :
  split_dot (a ++ String "."%char b) = (split_dot a ++ split_dot b)%list.
Proof. exact (split_on_glue dot a b). Qed.

Lemma join_cons_char (c : ascii) (h : string) (t : list string) :
  join "." (String c h :: t) = String c (join "." (h :: t)).
Proof. destruct t; reflexivity. Qed.

Lemma join_split_dot (s : string) : join "." (split_dot s) = s.
Proof.
  unfold split_dot. induction s as [|c rest IH]; [reflexivity|].
  pose proof (split_on_not_nil dot rest) as Hn.
  simpl. destruct (Ascii.eqb c dot) eqn:Hc.
  - apply Ascii.eqb_eq in Hc. subst c.
    destruct (split_on dot rest) as [|h t]; [contradiction|].
    change (join "." ("" :: h :: t)) with (String dot (join "." (h :: t))).
    now rewrite IH.
  - destruct (split_on dot rest) as [|h t]; [contradiction|].
    rewrite join_cons_char. now rewrite IH.
Qed.

Lemma split_dot_single (s : string) :
  length (split_dot s) = 1 -> split_dot s = [s].
Proof.
  intros H. pose proof (join_split_dot s) as J.
  destruct (split_dot s) as [|x [|y l]]; try discriminate.
  simpl in J. now subst x.
Qed.

Lemma rsplit_dot1_glue (a t : string) :
  length (split_dot t) = 1 -> rsplit_dot1 (a ++ "." ++ t) = [a; t].
Proof.
  intros H. unfold rsplit_dot1.
  rewrite split_dot_glue, (split_dot_single t H), rev_app_distr. simpl.
  pose proof (split_on_not_nil dot a) as Hn. fold (split_dot a) in Hn.
  destruct (rev (split_dot a)) as [|x l] eqn:Hr.
  - apply (f_equal (@rev string)) in Hr. rewrite rev_involutive in Hr.
    simpl in Hr. contradiction.
  - rewrite <- Hr, rev_involutive, join_split_dot. reflexivity.
Qed.

Lemma rsplit_dot1_single (s : string) :
  length (split_dot s) = 1 -> rsplit_dot1 s = [s].
Proof.
  intros H. unfold rsplit_dot1. now rewrite (split_dot_single s H).
Qed.

(** ** Qualified names *)

(** X1. Whatever the defaults are, a name [_fully_qualified_name] returns
    has at least three components; when the default project and dataset
    have no separator of their own it has exactly three. *)
Theorem fully_qualified_name_three_components {World} (E : Externals World)
    (name : string) (database : option string) (st : State World)
    (q : string) :
  fst (_fully_qualified_name E name database st) = Ok q ->
  3 <= length (split_dot q) /\
  (forall dp dd,
     fst (_parse_project_and_dataset E database st) = Ok (dp, dd) ->
     length (split_dot dp) = 1 -> length (split_dot dd) = 1 ->
     length (split_dot q) = 3).
Proof.
  intros H.
  destruct (fst (_parse_project_and_dataset E database st))
    as [[dp dd]|e] eqn:Hp.
  - rewrite (fully_qualified_name_unfold E name database st dp dd Hp) in H.
    simpl in H.
    pose proof (split_dot_length_pos dp) as Pdp.
    pose proof (split_dot_length_pos dd) as Pdd.
    assert (Hq : (length (split_dot name) = 3 /\ q = name) \/
                 (length (split_dot name) = 2 /\ q = dp ++ "." ++ name) \/
                 (length (split_dot name) = 1 /\
                  q = dp ++ "." ++ dd ++ "." ++ name)).
    { destruct (Nat.eqb (length (split_dot name)) 3) eqn:E3.
      { apply Nat.eqb_eq in E3. injection H as <-. now left. }
      destruct (Nat.eqb (length (split_dot name)) 2) eqn:E2.
      { apply Nat.eqb_eq in E2. injection H as <-. right. now left. }
      destruct (Nat.eqb (length (split_dot name)) 1) eqn:E1;
        [|discriminate].
      apply Nat.eqb_eq in E1. injection H as <-. right. now right. }
    destruct Hq as [[Hn ->]|[[Hn ->]|[Hn ->]]].
    + split; [lia|]. intros. assumption.
    + rewrite split_dot_glue, length_app. split; [lia|].
      intros dp' dd' Heq H1 _. injection Heq as <- <-. lia.
    + rewrite split_dot_glue, length_app, split_dot_glue, length_app.
      split; [lia|].
      intros dp' dd' Heq H1 H2. injection Heq as <- <-. lia.
  - rewrite (fully_qualified_name_defaults_fail E name database st e Hp) in H.
    discriminate.
Qed.

Lemma fully_qualified_name_three_components_witness :
  3 <= length (split_dot "p.d.orders").
Proof.
  apply (fully_qualified_name_three_components demo_externals "orders" None
           demo_state "p.d.orders"). reflexivity.
Defined.

(** X2. [_get_table_schema] cuts a qualified name at its last separator and
    looks the table up in the dataset before it: the outcome is that of
    [get_schema(table, database=dataset)].  A name without a separator
    cannot be unpacked: it raises [ValueError] and nothing is called. *)
Theorem get_table_schema_cuts_at_last_dot {World} (E : Externals World)
    (st : State World) :
  (forall dataset' table',
     length (split_dot table') = 1 ->
     _get_table_schema E (dataset' ++ "." ++ table') st
       = get_schema E table' (Some dataset') st) /\
  (forall qualified_name,
     length (split_dot qualified_name) = 1 ->
     _get_table_schema E qualified_name st
       = (Raise (ValueError msg_unpack), st)).
Proof.
  split.
  - intros d t H. unfold _get_table_schema.
    now rewrite (rsplit_dot1_glue d t H).
  - intros q H. unfold _get_table_schema.
    now rewrite (rsplit_dot1_single q H).
Qed.

Lemma get_table_schema_cuts_at_last_dot_witness :
  _get_table_schema demo_externals "p.d.orders" demo_state
    = get_schema demo_externals "orders" (Some "p.d") demo_state /\
  _get_table_schema demo_externals "orders" demo_state
    = (Raise (ValueError msg_unpack), demo_state).
Proof.
  destruct (get_table_schema_cuts_at_last_dot demo_externals demo_state)
    as [H1 H2].
  split.
  - exact (H1 "p.d" "orders" eq_refl).
  - exact (H2 "orders" eq_refl).
Defined.

(** X3. [database]: a non-empty name is taken as it is and needs no
    connection; the empty name and [None] fall back on the default dataset;
    only [None] with an empty default dataset raises, so the empty name on
    such a connection gives a database with an empty name. *)
Theorem database_name_or_default {World} (st : State World) :
  (forall name, str_truthy name = true ->
     database (Some name) st = (Ok (mkBigQueryDatabase name), st)) /\
  (forall ds, dataset (self_ st) = Some ds ->
     database (Some "") st = (Ok (mkBigQueryDatabase ds), st)) /\
  (forall ds, dataset (self_ st) = Some ds -> str_truthy ds = true ->
     database None st = (Ok (mkBigQueryDatabase ds), st)) /\
  (dataset (self_ st) = Some "" ->
     database None st = (Raise (ValueError msg_database_no_dataset), st)).
Proof.
  destruct st as [[dp bp ds0 c pc] w t].
  unfold database, bind, getattr, ret, raise. cbn.
  split; [|split; [|split]].
  - intros name H. destruct name; [discriminate|reflexivity].
  - intros ds ->. reflexivity.
  - intros ds -> H. destruct ds; [discriminate|reflexivity].
  - intros ->. reflexivity.
Qed.

Lemma database_name_or_default_witness :
  database (Some "other") unconnected_state
    = (Ok (mkBigQueryDatabase "other"), unconnected_state) /\
  database (Some "") (mkState demo_backend_no_dataset 1 [])
    = (Ok (mkBigQueryDatabase ""), mkState demo_backend_no_dataset 1 []) /\
  database None demo_state = (Ok (mkBigQueryDatabase "d"), demo_state) /\
  database None (mkState demo_backend_no_dataset 1 [])
    = (Raise (ValueError msg_database_no_dataset),
       mkState demo_backend_no_dataset 1 []).
Proof.
  split; [|split; [|split]].
  - apply (database_name_or_default unconnected_state). reflexivity.
  - apply (database_name_or_default (mkState demo_backend_no_dataset 1 [])).
    reflexivity.
  - apply (database_name_or_default demo_state); reflexivity.
  - apply (database_name_or_default (mkState demo_backend_no_dataset 1 [])).
    reflexivity.
Defined.

(** ** Changing the default dataset *)

(** The state [set_database] leaves when the name resolves. *)
Lemma set_database_ok {World} (E : Externals World) name
    (st : State World) dp ds :
  fst (_parse_project_and_dataset E name st) = Ok (dp, ds) ->
  set_database E name st =
    (Ok tt,
     mkState
       {| data_project := Some dp;
          billing_project := billing_project (self_ st);
          dataset := Some ds; client := client (self_ st);
          partition_column := partition_column (self_ st) |}
       (world st) (trace st)).
Proof. intros H. rewrite set_database_unfold. now rewrite H. Qed.

(** Without an explicit database, the helper is given the billing project
    and the data project and dataset joined by a separator. *)
Lemma parse_project_and_dataset_implicit {World} (E : Externals World)
    (st : State World) bp dp ds :
  billing_project (self_ st) = Some bp ->
  data_project (self_ st) = Some dp ->
  dataset (self_ st) = Some ds ->
  str_truthy ds = true ->
  _parse_project_and_dataset E None st
    = (match parse_project_and_dataset E bp (dp ++ "." ++ ds) with
       | Ok (project, _, dataset') => Ok (project, dataset')
       | Raise e => Raise e
       end, st).
Proof.
  intros Hb Hdp Hds Ht. destruct st as [[dp0 bp0 ds0 c pc] w t].
  simpl in Hb, Hdp, Hds. subst dp0 bp0 ds0.
  destruct ds as [|a ds]; [discriminate|].
  unfold _parse_project_and_dataset, bind, getattr, ret, lift. cbn.
  destruct (parse_project_and_dataset E bp _) as [[[p b] d]|e]; reflexivity.
Qed.

(** X4. When the name resolves to a project and a dataset, [set_database]
    returns without any call, and afterwards [project_id] is that project,
    [dataset_id] and [current_database] are that dataset.  With the helper
    as the spec describes it, and project and dataset free of separators,
    they are also what unqualified names resolve against from then on. *)
Theorem set_database_sets_defaults {World} (E : Externals World)
    (name : option string) (st : State World) (dp ds : string) :
  fst (_parse_project_and_dataset E name st) = Ok (dp, ds) ->
  fst (set_database E name st) = Ok tt /\
  world (snd (set_database E name st)) = world st /\
  trace (snd (set_database E name st)) = trace st /\
  fst (project_id (snd (set_database E name st))) = Ok dp /\
  fst (dataset_id (snd (set_database E name st))) = Ok ds /\
  fst (current_database (snd (set_database E name st))) = Ok ds /\
  (forall bp table',
     (forall a b, parse_project_and_dataset E a b
                  = parse_project_and_dataset_spec a b) ->
     billing_project (self_ st) = Some bp ->
     str_truthy ds = true ->
     length (split_dot dp) = 1 -> length (split_dot ds) = 1 ->
     length (split_dot table') = 1 ->
     fst (_fully_qualified_name E table' None (snd (set_database E name st)))
       = Ok (dp ++ "." ++ ds ++ "." ++ table')).
Proof.
  intros H. rewrite (set_database_ok E name st dp ds H). cbn [fst snd].
  repeat (split; [reflexivity|]).
  intros bp table' Hspec Hbp Hds Hdp1 Hds1 Ht.
  assert (Hp : fst (_parse_project_and_dataset E None
                      (mkState
                         {| data_project := Some dp;
                            billing_project := billing_project (self_ st);
                            dataset := Some ds; client := client (self_ st);
                            partition_column := partition_column (self_ st) |}
                         (world st) (trace st))) = Ok (dp, ds)).
  { rewrite (parse_project_and_dataset_implicit E _ bp dp ds)
      by (try reflexivity; assumption).
    rewrite Hspec. unfold parse_project_and_dataset_spec.
    rewrite split_dot_glue, (split_dot_single dp Hdp1),
      (split_dot_single ds Hds1). reflexivity. }
  rewrite (fully_qualified_name_unfold E table' None _ dp ds Hp).
  rewrite Ht. reflexivity.
Qed.

Lemma set_database_sets_defaults_witness :
  fst (project_id (snd (set_database demo_externals (Some "q.e") demo_state)))
    = Ok "q" /\
  fst (_fully_qualified_name demo_externals "orders" None
         (snd (set_database demo_externals (Some "q.e") demo_state)))
    = Ok "q.e.orders".
Proof.
  pose proof (set_database_sets_defaults demo_externals (Some "q.e")
                demo_state "q" "e" eq_refl) as [_ [_ [_ [H1 [_ [_ H2]]]]]].
  split; [exact H1|].
  apply (H2 "p" "orders"); reflexivity.
Defined.

(** X5. [set_database] redirects the catalogue, not the bill: after it,
    [list_databases] asks for the datasets of the newly resolved project,
    while [_execute] still submits under the billing project of the
    connection. *)
Theorem set_database_keeps_billing {World} (E : Externals World)
    (name : option string) (st : State World) (dp ds : string)
    (c : Client) (bp : string) :
  fst (_parse_project_and_dataset E name st) = Ok (dp, ds) ->
  client (self_ st) = Some c ->
  billing_project (self_ st) = Some bp ->
  (forall like, exists r tail,
     trace (snd (list_databases E like (snd (set_database E name st))))
       = (trace st ++ mkEvent (CListDatasets c dp) r :: tail)%list) /\
  (forall stmt results qp, exists r tail,
     trace (snd (_execute E stmt results qp (snd (set_database E name st))))
       = (trace st
          ++ mkEvent (CQuery c stmt (job_config_of qp) bp) r :: tail)%list).
Proof.
  intros H Hc Hb. rewrite (set_database_ok E name st dp ds H). cbn [snd].
  split.
  - intros like. unfold list_databases, bind, getattr, call, compute,
      log_event. cbn. rewrite Hc. cbn.
    destruct (client_list_datasets E c dp (world st)) as [[l|e] w]; cbn.
    + eexists _, [_]. rewrite <- app_assoc. reflexivity.
    + eexists _, []. reflexivity.
  - intros stmt results qp.
    rewrite (execute_stmt_unfold E stmt results qp _ c bp) by (cbn; assumption).
    cbn [world trace self_].
    destruct (client_query E c stmt (job_config_of qp) bp (world st))
      as [[job|e] w1].
    + destruct (query_result E job w1) as [[u|e] w2];
        eexists _, [_]; reflexivity.
    + eexists _, []. reflexivity.
Qed.

Lemma set_database_keeps_billing_witness :
  exists r tail,
    trace (snd (list_databases demo_externals None
                  (snd (set_database demo_externals (Some "q.e") demo_state))))
      = ([] ++ mkEvent (CListDatasets (ClientHandle 0) "q") r :: tail)%list.
Proof.
  apply (set_database_keeps_billing demo_externals (Some "q.e") demo_state
           "q" "e" (ClientHandle 0) "p"); reflexivity.
Defined.

(** ** What reaches the client *)

Lemma keeps_log_quiet {World A} P (m : M World A) : quiet m -> keeps_log P m.
Proof. intros H st Hst. now rewrite H. Qed.

Lemma keeps_log_event {World} P c e (st : State World) w :
  P (mkEvent c e) -> Forall P (trace st) ->
  Forall P (trace (log_event c e st w)).
Proof.
  intros Hc Hst. unfold log_event. cbn. apply Forall_app. split; auto.
Qed.

Lemma keeps_log_call {World A} P c (f : World -> Result A * World) :
  (forall e, P (mkEvent c e)) -> keeps_log P (call c f).
Proof.
  intros Hc st Hst. unfold call. destruct (f (world st)) as [r w].
  now apply keeps_log_event.
Qed.

Lemma keeps_log_compute {World A} P c (r : Result A) :
  (forall e, P (mkEvent c e)) -> keeps_log P (@compute World A c r).
Proof. intros Hc st Hst. now apply keeps_log_event. Qed.

Lemma keeps_log_note {World} P c :
  (forall e, P (mkEvent c e)) -> keeps_log P (@note World c).
Proof. intros Hc st Hst. now apply keeps_log_event. Qed.

Lemma keeps_log_setself {World} P f : keeps_log P (@setself World f).
Proof. intros st Hst. exact Hst. Qed.

(** The rest of a computation may rely on the value it is given being one
    the first part returned. *)
Lemma keeps_log_bind {World A B} P (m : M World A) (k : A -> M World B) :
  keeps_log P m ->
  (forall a, (exists st, fst (m st) = Ok a) -> keeps_log P (k a)) ->
  keeps_log P (bind m k).
Proof.
  intros Hm Hk st Hst. unfold bind. specialize (Hm st Hst).
  destruct (m st) as [[a|e] st'] eqn:Hr; simpl in *; [|assumption].
  apply Hk; [|assumption]. exists st. now rewrite Hr.
Qed.

Lemma keeps_log_for_each {World A B} P (f : A -> M World B) (xs : list A) :
  (forall x, keeps_log P (f x)) -> keeps_log P (for_each f xs).
Proof.
  intros Hf. induction xs as [|x rest IH]; simpl.
  - apply keeps_log_quiet, quiet_ret.
  - apply keeps_log_bind; [apply Hf|]. intros y _.
    apply keeps_log_bind; [apply IH|]. intros ys _.
    apply keeps_log_quiet, quiet_ret.
Qed.

Lemma keeps_log_try_except_NotFound {World A} P (body handler : M World A) :
  keeps_log P body -> keeps_log P handler ->
  keeps_log P (try_except_NotFound body handler).
Proof.
  intros Hb Hh st Hst. unfold try_except_NotFound. specialize (Hb st Hst).
  destruct (body st) as [[a|[]] st']; simpl in *; try assumption.
  now apply Hh.
Qed.

Lemma keeps_log_fmap {World A B} P (f : A -> B) (m : M World A) :
  keeps_log P m -> keeps_log P (fmap f m).
Proof.
  intros H. unfold fmap. apply keeps_log_bind; [assumption|].
  intros a _. apply keeps_log_quiet, quiet_ret.
Qed.

Ltac log_side :=
  intros; unfold qualified_lookup; cbn [ev_call]; first [exact I | assumption].

Ltac log_step :=
  first [ apply keeps_log_quiet;
          first [ apply quiet_ret | apply quiet_raise | apply quiet_lift
                | apply quiet_getattr | apply quiet_parse_project_and_dataset
                | apply quiet_fully_qualified_name ]
        | apply keeps_log_call; log_side
        | apply keeps_log_compute; log_side
        | apply keeps_log_note; log_side
        | apply keeps_log_setself
        | apply keeps_log_for_each; intros ?
        | apply keeps_log_try_except_NotFound
        | apply keeps_log_fmap
        | apply keeps_log_bind; [|intros ? ?]
        | match goal with
          | |- keeps_log _ (match ?x with _ => _ end) => destruct x
          end
        | assumption ].

Ltac log_auto := cbv zeta; repeat log_step.

(** A name that came out of [_fully_qualified_name] has three components
    or more. *)
Lemma fully_qualified_name_returned {World} (E : Externals World) n d q :
  (exists st : State World, fst (_fully_qualified_name E n d st) = Ok q) ->
  3 <= length (split_dot q).
Proof.
  intros [st H].
  destruct (fst (_parse_project_and_dataset E d st)) as [[dp dd]|e] eqn:Hp.
  - rewrite (fully_qualified_name_unfold E n d st dp dd Hp) in H.
    cbn [fst] in H.
    pose proof (split_dot_length_pos dp) as Pdp.
    pose proof (split_dot_length_pos dd) as Pdd.
    destruct (Nat.eqb (length (split_dot n)) 3) eqn:E3.
    { apply Nat.eqb_eq in E3. injection H as <-. lia. }
    destruct (Nat.eqb (length (split_dot n)) 2) eqn:E2.
    { apply Nat.eqb_eq in E2. injection H as <-.
      rewrite split_dot_glue_char, length_app. lia. }
    destruct (Nat.eqb (length (split_dot n)) 1) eqn:E1; [|discriminate].
    apply Nat.eqb_eq in E1. injection H as <-.
    rewrite split_dot_glue_char, length_app, split_dot_glue_char, length_app.
    lia.
  - rewrite (fully_qualified_name_defaults_fail E n d st e Hp) in H.
    discriminate.
Qed.

Lemma keeps_log_execute_stmt {World} (E : Externals World) s r q :
  keeps_log qualified_lookup (_execute E s r q).
Proof. unfold _execute. log_auto. Qed.

Lemma keeps_log_raw_sql {World} (E : Externals World) s r p :
  keeps_log qualified_lookup (raw_sql E s r p).
Proof.
  unfold raw_sql. apply keeps_log_bind; [log_auto|].
  intros ? _. apply keeps_log_execute_stmt.
Qed.

Lemma keeps_log_get_schema {World} (E : Externals World) n d :
  keeps_log qualified_lookup (get_schema E n d).
Proof. unfold get_schema. log_auto. Qed.

Lemma keeps_log_execute {World} (E : Externals World) e p l k :
  keeps_log qualified_lookup (execute E e p l k).
Proof.
  unfold execute, fetch_from_cursor. cbv zeta.
  do 4 (apply keeps_log_bind; [log_auto|intros ? _]).
  apply keeps_log_bind; [apply keeps_log_raw_sql|intros ? _].
  log_auto.
Qed.

Lemma keeps_log_table {World} (E : Externals World) n d :
  keeps_log qualified_lookup (table E n d).
Proof.
  unfold table. apply keeps_log_bind; [log_auto|intros t _].
  apply keeps_log_bind; [log_auto|intros table_id Hid].
  apply fully_qualified_name_returned in Hid. log_auto.
Qed.

Lemma keeps_log_exists_table {World} (E : Externals World) n d :
  keeps_log qualified_lookup (exists_table E n d).
Proof.
  unfold exists_table, found. apply keeps_log_bind; [log_auto|intros t _].
  apply keeps_log_bind; [log_auto|intros table_id Hid].
  apply fully_qualified_name_returned in Hid. log_auto.
Qed.

Lemma keeps_log_run {World} (E : Externals World) (op : Op) :
  keeps_log qualified_lookup (run E op).
Proof.
  destruct op; simpl; apply keeps_log_fmap.
  - unfold connect. log_auto.
  - log_auto.
  - unfold project_id. log_auto.
  - unfold dataset_id. log_auto.
  - apply keeps_log_table.
  - log_auto.
  - unfold _get_schema_using_query, _adapt_types.
    apply keeps_log_bind; [apply keeps_log_execute_stmt|intros ? _]. log_auto.
  - unfold _get_table_schema.
    repeat match goal with
      | |- keeps_log _ (match ?x with _ => _ end) => destruct x
      end;
      first [apply keeps_log_quiet, quiet_raise | apply keeps_log_get_schema].
  - unfold _adapt_types. log_auto.
  - apply keeps_log_execute_stmt.
  - apply keeps_log_raw_sql.
  - unfold current_database. log_auto.
  - unfold database. log_auto.
  - apply keeps_log_execute.
  - unfold exists_database, found. log_auto.
  - apply keeps_log_exists_table.
  - unfold fetch_from_cursor. log_auto.
  - apply keeps_log_get_schema.
  - unfold list_databases. log_auto.
  - unfold list_tables. log_auto.
  - unfold set_database. log_auto.
  - unfold version. log_auto.
Qed.

(** X6. No operation hands the client a partly qualified table id: if it
    holds of the log so far, then in the log an operation leaves every
    [client.get_table] given an id string is given one of at least three
    components. *)
Theorem table_ids_sent_are_qualified {World} (E : Externals World)
    (op : Op) (st : State World) (ev : Event) (c : Client)
    (table_id : string) :
  Forall qualified_lookup (trace st) ->
  In ev (trace (snd (run E op st))) ->
  ev_call ev = CGetTable c (ById table_id) ->
  3 <= length (split_dot table_id).
Proof.
  intros Hst Hin Hev.
  assert (H : Forall qualified_lookup (trace (snd (run E op st)))).
  { now apply keeps_log_run. }
  rewrite Forall_forall in H. specialize (H ev Hin).
  unfold qualified_lookup in H. now rewrite Hev in H.
Qed.

Lemma table_ids_sent_are_qualified_witness :
  3 <= length (split_dot "p.d.orders").
Proof.
  apply (table_ids_sent_are_qualified demo_externals (OpTable "orders" None)
           demo_state
           (returned (CGetTable (ClientHandle 0) (ById "p.d.orders")))
           (ClientHandle 0) "p.d.orders").
  - constructor.
  - simpl. right. left. reflexivity.
  - reflexivity.
Defined.

(** ** What [connect] returns *)

(** X7. With credentials supplied, a [connect] that returns made exactly
    one call, the construction of the client under the billing project the
    helper gave for [project_id or ""]: nothing was authenticated.  The
    instance returned has all five attributes assigned, the partition column
    as given, and the instance [connect] was called on is as it was. *)
Theorem connect_with_credentials {World} (E : Externals World)
    (project_id_arg : option string) (dataset_id_arg : string)
    (cred : Credentials) (application_name : option string)
    (lw ed : bool) (auth_cache : string) (pc : option string)
    (st : State World) (b : Backend) :
  fst (connect E project_id_arg dataset_id_arg (Some cred) application_name
         lw ed auth_cache pc st) = Ok b ->
  connected b /\
  partition_column b = Some pc /\
  self_ (snd (connect E project_id_arg dataset_id_arg (Some cred)
                application_name lw ed auth_cache pc st)) = self_ st /\
  exists dp bp ds c,
    parse_project_and_dataset E (opt_or project_id_arg "") dataset_id_arg
      = Ok (dp, bp, ds) /\
    data_project b = Some dp /\ billing_project b = Some bp /\
    dataset b = Some ds /\ client b = Some c /\
    trace (snd (connect E project_id_arg dataset_id_arg (Some cred)
                  application_name lw ed auth_cache pc st))
      = (trace st ++ [returned (CNewClient bp cred application_name)])%list.
Proof.
  unfold connect, bind, ret, lift, call, log_event. cbn.
  destruct (parse_project_and_dataset E (opt_or project_id_arg "")
              dataset_id_arg) as [[[dp bp] ds]|e]; [|discriminate].
  destruct (bq_Client E bp cred application_name (world st)) as [[c|e] w];
    cbn; [|discriminate].
  intros H. injection H as <-. cbn.
  split; [repeat split; discriminate|].
  split; [reflexivity|]. split; [reflexivity|].
  exists dp, bp, ds, c. repeat split.
Qed.

Lemma connect_with_credentials_witness :
  connected demo_backend.
Proof.
  apply (connect_with_credentials demo_externals (Some "p") "d"
           (CredentialsHandle 0) None true false "default"
           (Some "PARTITIONTIME") unconnected_state demo_backend).
  reflexivity.
Defined.

(** X8. Without credentials, a [connect] that returns authenticated first
    and built the client second, with the credentials the authentication
    gave.  The cache is read-write for ['default'], write-only for
    ['reauth'] and none for ['none'], on the file [ibis.json]; the scopes
    are the external-data ones exactly when [auth_external_data] is set;
    and the project is the [project_id] argument when it is non-empty, the
    default project of the credentials otherwise. *)
Theorem connect_authenticates_first {World} (E : Externals World)
    (project_id_arg : option string) (dataset_id_arg : string)
    (application_name : option string)
    (lw ed : bool) (auth_cache : string) (pc : option string)
    (st : State World) (b : Backend) :
  fst (connect E project_id_arg dataset_id_arg None application_name
         lw ed auth_cache pc st) = Ok b ->
  exists cache cred default_project w dp bp ds,
    In (auth_cache, cache)
       [("default", ReadWriteCredentialsCache "ibis.json");
        ("reauth", WriteOnlyCredentialsCache "ibis.json");
        ("none", NOOP)] /\
    pydata_google_auth_default E
        (if ed then EXTERNAL_DATA_SCOPES else SCOPES)
        CLIENT_ID CLIENT_SECRET cache lw (world st)
      = (Ok (cred, default_project), w) /\
    parse_project_and_dataset E (opt_or project_id_arg default_project)
        dataset_id_arg = Ok (dp, bp, ds) /\
    data_project b = Some dp /\ billing_project b = Some bp /\
    dataset b = Some ds /\
    trace (snd (connect E project_id_arg dataset_id_arg None application_name
                  lw ed auth_cache pc st))
      = (trace st
         ++ [returned (CAuthDefault
                         (if ed then EXTERNAL_DATA_SCOPES else SCOPES)
                         CLIENT_ID CLIENT_SECRET cache lw);
             returned (CNewClient bp cred application_name)])%list.
Proof.
  unfold connect, bind, ret, raise, lift, call, log_event.
  assert (Hcases :
    (auth_cache = "default" \/ auth_cache = "reauth" \/ auth_cache = "none")
    \/ (String.eqb auth_cache "default" = false /\
        String.eqb auth_cache "reauth" = false /\
        String.eqb auth_cache "none" = false)).
  { destruct (String.eqb auth_cache "default") eqn:H1;
      [apply String.eqb_eq in H1; auto|].
    destruct (String.eqb auth_cache "reauth") eqn:H2;
      [apply String.eqb_eq in H2; auto|].
    destruct (String.eqb auth_cache "none") eqn:H3;
      [apply String.eqb_eq in H3; auto|]. now right. }
  destruct Hcases as [ [ -> | [ -> | -> ] ] | [H1 [H2 H3] ] ];
    [| | |rewrite H1, H2, H3; intros HH; discriminate HH];
    cbn -[opt_or];
    match goal with
    | |- context [pydata_google_auth_default E ?s ?i ?k ?cache lw (world st)] =>
        destruct (pydata_google_auth_default E s i k cache lw (world st))
          as [[[cred dflt]|e] w] eqn:Ha; cbn -[opt_or];
          [|intros HH; discriminate HH];
        destruct (parse_project_and_dataset E (opt_or project_id_arg dflt)
                    dataset_id_arg) as [[[dp bp] ds]|e] eqn:Hp;
          cbn -[opt_or]; [|intros HH; discriminate HH];
        destruct (bq_Client E bp cred application_name w) as [[c|e] w'];
          cbn -[opt_or]; [|intros HH; discriminate HH];
        intros H; injection H as <-;
        exists cache, cred, dflt, w, dp, bp, ds
    end;
    (split; [simpl; auto|]);
    (split; [exact Ha|]);
    (split; [exact Hp|]);
    repeat (split; [reflexivity|]);
    cbn; rewrite <- app_assoc; reflexivity.
Qed.

Lemma connect_authenticates_first_witness :
  exists cache cred default_project w dp bp ds,
    In ("reauth", cache)
       [("default", ReadWriteCredentialsCache "ibis.json");
        ("reauth", WriteOnlyCredentialsCache "ibis.json");
        ("none", NOOP)] /\
    pydata_google_auth_default demo_externals EXTERNAL_DATA_SCOPES
        CLIENT_ID CLIENT_SECRET cache false 0
      = (Ok (cred, default_project), w) /\
    parse_project_and_dataset demo_externals (opt_or None default_project)
        "d" = Ok (dp, bp, ds) /\
    Some "p" = Some dp /\ Some "p" = Some bp /\ Some "d" = Some ds /\
    trace (snd (connect demo_externals None "d" None None false true "reauth"
                  None unconnected_state))
      = ([] ++ [returned (CAuthDefault EXTERNAL_DATA_SCOPES
                            CLIENT_ID CLIENT_SECRET cache false);
                returned (CNewClient bp cred None)])%list.
Proof.
  apply (connect_authenticates_first demo_externals None "d" None false true
           "reauth" None unconnected_state
           {| data_project := Some "p"; billing_project := Some "p";
              dataset := Some "d"; client := Some (ClientHandle 1);
              partition_column := Some None |}).
  reflexivity.
Defined.

(** ** Loops over conversions *)

Lemma compute_raise {World A} c (r : Result A) e (st : State World) :
  r = Raise e ->
  compute c r st
    = (Raise e, mkState (self_ st) (world st) (trace st ++ [failed c e])).
Proof. intros ->. reflexivity. Qed.

Lemma call_raise {World A} c (f : World -> Result A * World) e w
    (st : State World) :
  f (world st) = (Raise e, w) ->
  call c f st = (Raise e, mkState (self_ st) w (trace st ++ [failed c e])).
Proof. intros H. unfold call. now rewrite H. Qed.

Lemma for_each_compute_ok {World A B} (c : A -> Call) (r : A -> Result B)
    xs ys (st : State World) :
  Forall2 (fun x y => r x = Ok y) xs ys ->
  for_each (fun x => compute (c x) (r x)) xs st
    = (Ok ys,
       mkState (self_ st) (world st)
         (trace st ++ map (fun x => returned (c x)) xs)).
Proof.
  intros H. revert st. induction H as [|x y xs ys Hx _ IH]; intros st.
  - simpl. unfold ret. rewrite app_nil_r. now destruct st.
  - simpl. erewrite bind_ok by (apply compute_ok; exact Hx).
    erewrite bind_ok by apply IH.
    unfold ret. cbn. rewrite <- app_assoc. reflexivity.
Qed.

Lemma for_each_compute_fail {World A B} (c : A -> Call) (r : A -> Result B)
    pre x post ys e (st : State World) :
  Forall2 (fun x y => r x = Ok y) pre ys ->
  r x = Raise e ->
  for_each (fun x => compute (c x) (r x)) (pre ++ x :: post) st
    = (Raise e,
       mkState (self_ st) (world st)
         (trace st ++ map (fun x => returned (c x)) pre ++ [failed (c x) e])).
Proof.
  intros H Hx. revert st. induction H as [|x0 y pre ys Hx0 _ IH]; intros st.
  - simpl. erewrite bind_raise; [reflexivity|].
    unfold compute, log_event. now rewrite Hx.
  - simpl. erewrite bind_ok by (apply compute_ok; exact Hx0).
    erewrite bind_raise by apply IH.
    cbn. rewrite <- app_assoc. reflexivity.
Qed.

Lemma for_each_compute_inv {World A B} (c : A -> Call) (r : A -> Result B)
    xs ys (st : State World) :
  fst (for_each (fun x => compute (c x) (r x)) xs st) = Ok ys ->
  Forall2 (fun x y => r x = Ok y) xs ys.
Proof.
  revert ys st. induction xs as [|x xs IH]; intros ys st H.
  - simpl in H. injection H as <-. constructor.
  - simpl in H. unfold bind at 1 in H. unfold compute at 1 in H.
    destruct (r x) as [y|e] eqn:Hx; [|discriminate H].
    unfold bind in H.
    destruct (for_each (fun x => compute (c x) (r x)) xs _)
      as [[ys'|e] st'] eqn:Hr; [|discriminate H].
    simpl in H. injection H as <-. constructor; [assumption|].
    apply (IH ys' (log_event (c x) (raised (Ok y)) st (world st))).
    now rewrite Hr.
Qed.

(** ** Parameters and keywords *)

(** X9. [raw_sql] converts the parameters before it touches the client:
    when the conversion of one of them raises, that exception is raised,
    the parameters after it are not converted, and no query is submitted. *)
Theorem raw_sql_bad_parameter {World} (E : Externals World)
    (sql : string) (results : PyObj)
    (pre : list (Expr * PyObj)) (pv : Expr * PyObj)
    (post : list (Expr * PyObj)) (qps : list QueryParameter) (e : PyExc)
    (st : State World) :
  Forall2 (fun pv qp => bigquery_param E (fst pv) (snd pv) = Ok qp) pre qps ->
  bigquery_param E (fst pv) (snd pv) = Raise e ->
  raw_sql E sql results (Some (pre ++ pv :: post)%list) st
    = (Raise e,
       mkState (self_ st) (world st)
         (trace st ++ map param_event pre
            ++ [failed (CBigqueryParam (fst pv) (snd pv)) e])).
Proof.
  intros Hpre Hpv. unfold raw_sql.
  erewrite bind_raise; [reflexivity|].
  apply (for_each_compute_fail
           (fun pv => CBigqueryParam (fst pv) (snd pv))
           (fun pv => bigquery_param E (fst pv) (snd pv)))
    with (ys := qps); assumption.
Qed.

Lemma raw_sql_bad_parameter_witness :
  raw_sql demo_strict_externals "SELECT @a, @b" (PyBool false)
    (Some ([(ExprHandle 1, PyBool true)] ++ (ExprHandle 2, PyNone) :: [])%list)
    demo_state
  = (Raise (LibraryError "NotImplementedError" "NoneType"),
     mkState demo_backend 1
       ([] ++ map param_event [(ExprHandle 1, PyBool true)]
           ++ [failed (CBigqueryParam (ExprHandle 2) PyNone)
                 (LibraryError "NotImplementedError" "NoneType")])%list).
Proof.
  apply raw_sql_bad_parameter with (qps := [QueryParameterHandle 0]).
  - repeat constructor.
  - reflexivity.
Defined.

Lemma kwargs_pop_idempotent key kwargs :
  kwargs_pop key (kwargs_pop key kwargs) = kwargs_pop key kwargs.
Proof.
  unfold kwargs_pop. induction kwargs as [|kv rest IH]; [reflexivity|].
  simpl. destruct (negb (String.eqb (fst kv) key)) eqn:H; simpl.
  - rewrite H. now rewrite IH.
  - exact IH.
Qed.

Lemma bind_raw_sql_kwargs_unexpected kwargs results :
  existsb (fun kv => unexpected_keyword (fst kv)) kwargs = true ->
  exists k,
    bind_raw_sql_kwargs (kwargs_pop "timecontext" kwargs) results
      = Raise (TypeError k) /\
    unexpected_keyword k = true.
Proof.
  revert results. induction kwargs as [|[k v] rest IH]; intros results H.
  - discriminate.
  - simpl in H. unfold kwargs_pop. simpl.
    destruct (String.eqb k "timecontext") eqn:Ht.
    + simpl. unfold unexpected_keyword in H at 1. rewrite Ht in H.
      simpl in H. now apply IH.
    + simpl. destruct (String.eqb k "results") eqn:Hr.
      * unfold unexpected_keyword in H at 1. rewrite Ht, Hr in H.
        simpl in H. now apply IH.
      * exists k. split; [reflexivity|].
        unfold unexpected_keyword. now rewrite Ht, Hr.
Qed.

(** X10. [execute] drops the [timecontext] keyword and passes the others on
    to [raw_sql], which takes [results] only: with any other keyword,
    [execute] raises, having compiled and logged at most, and without a
    call to the client; when the two compilation steps return, what it
    raises is the [TypeError] for that keyword. *)
Theorem execute_unexpected_keyword {World} (E : Externals World)
    (expr : Expr) (params : Params) (limit : Limit) (kwargs : Kwargs)
    (st : State World) :
  existsb (fun kv => unexpected_keyword (fst kv)) kwargs = true ->
  execute E expr params limit (kwargs_pop "timecontext" kwargs) st
    = execute E expr params limit kwargs st /\
  exists e new,
    fst (execute E expr params limit kwargs st) = Raise e /\
    trace (snd (execute E expr params limit kwargs st))
      = (trace st ++ new)%list /\
    world (snd (execute E expr params limit kwargs st)) = world st /\
    no_network new /\
    (forall ast sql,
       to_ast_ensure_limit E expr limit params = Ok ast ->
       ast_compile E ast = Ok sql ->
       exists k, e = TypeError k /\ unexpected_keyword k = true).
Proof.
  intros H. split.
  { unfold execute. cbv zeta. now rewrite kwargs_pop_idempotent. }
  destruct (bind_raw_sql_kwargs_unexpected kwargs (PyBool false) H)
    as [k [Hk Hu]].
  destruct (to_ast_ensure_limit E expr limit params) as [ast|e] eqn:Hast.
  - destruct (ast_compile E ast) as [sql|e] eqn:Hsql.
    + assert (Hex : execute E expr params limit kwargs st
                = (Raise (TypeError k),
                   mkState (self_ st) (world st)
                     (trace st ++ [returned (CToAst expr limit params);
                                   returned (CCompile ast);
                                   returned (CLog sql)]))).
      { unfold execute. cbv zeta.
        erewrite bind_ok by (apply compute_ok; exact Hast).
        erewrite bind_ok by (apply compute_ok; exact Hsql).
        erewrite bind_ok by reflexivity.
        erewrite bind_raise by (unfold lift; rewrite Hk; reflexivity).
        unfold log_event. cbn. repeat rewrite <- app_assoc. reflexivity. }
      rewrite Hex. cbn [fst snd trace world]. eexists _, _.
      split; [reflexivity|]. split; [reflexivity|].
      split; [reflexivity|]. split; [repeat constructor|].
      intros ast' sql' _ _. now exists k.
    + assert (Hex : execute E expr params limit kwargs st
                = (Raise e,
                   mkState (self_ st) (world st)
                     (trace st ++ [returned (CToAst expr limit params);
                                   failed (CCompile ast) e]))).
      { unfold execute. cbv zeta.
        erewrite bind_ok by (apply compute_ok; exact Hast).
        erewrite bind_raise by (apply compute_raise; exact Hsql).
        cbn. repeat rewrite <- app_assoc. reflexivity. }
      rewrite Hex. cbn [fst snd trace world]. eexists _, _.
      split; [reflexivity|]. split; [reflexivity|].
      split; [reflexivity|]. split; [repeat constructor|].
      intros ast' sql' Ha Hs. injection Ha as <-. rewrite Hsql in Hs.
      discriminate.
  - assert (Hex : execute E expr params limit kwargs st
              = (Raise e,
                 mkState (self_ st) (world st)
                   (trace st ++ [failed (CToAst expr limit params) e]))).
    { unfold execute. cbv zeta.
      erewrite bind_raise by (apply compute_raise; exact Hast). reflexivity. }
    rewrite Hex. cbn [fst snd trace world]. eexists _, _.
    split; [reflexivity|]. split; [reflexivity|].
    split; [reflexivity|]. split; [repeat constructor|].
    intros ast' sql' Ha. discriminate.
Qed.

Lemma execute_unexpected_keyword_witness :
  exists e new,
    fst (execute demo_externals (ExprHandle 0) None LimitDefault
           [("timecontext", PyNone); ("external_tables", PyNone)] demo_state)
      = Raise e /\
    trace (snd (execute demo_externals (ExprHandle 0) None LimitDefault
                  [("timecontext", PyNone); ("external_tables", PyNone)]
                  demo_state)) = ([] ++ new)%list /\
    world (snd (execute demo_externals (ExprHandle 0) None LimitDefault
                  [("timecontext", PyNone); ("external_tables", PyNone)]
                  demo_state)) = 1 /\
    no_network new /\
    (forall ast sql,
       to_ast_ensure_limit demo_externals (ExprHandle 0) LimitDefault None
         = Ok ast ->
       ast_compile demo_externals ast = Ok sql ->
       exists k, e = TypeError k /\ unexpected_keyword k = true).
Proof.
  apply (execute_unexpected_keyword demo_externals (ExprHandle 0) None
           LimitDefault [("timecontext", PyNone); ("external_tables", PyNone)]
           demo_state). reflexivity.
Defined.

(** ** The end of [execute] *)

(** [execute] up to the fetched result, when every step returns: what is
    left is the look for a result handler. *)
Lemma execute_until_fetched {World} (E : Externals World)
    (expr : Expr) (params : Params) (limit : Limit) (kwargs : Kwargs)
    (st : State World) (c : Client) (bp : string)
    (ast : QueryAST) (sql : string) (results : PyObj)
    (qps : list QueryParameter) (job : QueryJob) (schema : Schema)
    (df : DataFrame) (fetched : PyObj) (w1 w2 w3 : World) :
  client (self_ st) = Some c ->
  billing_project (self_ st) = Some bp ->
  to_ast_ensure_limit E expr limit params = Ok ast ->
  ast_compile E ast = Ok sql ->
  bind_raw_sql_kwargs (kwargs_pop "timecontext" kwargs) (PyBool false)
    = Ok results ->
  Forall2 (fun pv qp => bigquery_param E (fst pv) (snd pv) = Ok qp)
          (param_items params) qps ->
  client_query E c sql (job_config_of (Some qps)) bp (world st)
    = (Ok job, w1) ->
  query_result E job w1 = (Ok tt, w2) ->
  ast_schema E ast (kwargs_pop "timecontext" kwargs) = Ok schema ->
  query_to_dataframe E job w2 = (Ok df, w3) ->
  schema_apply_to E schema df = Ok fetched ->
  execute E expr params limit kwargs st
    = match match dml ast with
            | Some s => stmt_result_handler s
            | None => ast_result_handler ast
            end
      with
      | Some _ =>
          match dml ast with
          | None => raise (AttributeError "dml")
          | Some s =>
              match stmt_result_handler s with
              | None => raise (AttributeError "result_handler")
              | Some h => compute (CResultHandler h fetched)
                                  (result_handler_call E h fetched)
              end
          end
      | None => ret fetched
      end
        (mkState (self_ st) w3
           (trace st
            ++ [returned (CToAst expr limit params);
                returned (CCompile ast);
                returned (CLog sql)]
            ++ map param_event (param_items params)
            ++ [returned (CQuery c sql (job_config_of (Some qps)) bp);
                returned (CJobResult job);
                returned (CAstSchema ast (kwargs_pop "timecontext" kwargs));
                returned (CToDataframe job);
                returned (CApplyTo schema df)])).
Proof.
  intros Hc Hb Hast Hsql Hkw Hp Hq Hr Hschema Hdf Happly.
  unfold execute. cbv zeta.
  erewrite bind_ok by (apply compute_ok; exact Hast).
  erewrite bind_ok by (apply compute_ok; exact Hsql).
  erewrite bind_ok by reflexivity.
  erewrite bind_ok by (unfold lift; rewrite Hkw; reflexivity).
  erewrite bind_ok by (eapply raw_sql_ok; eauto).
  erewrite bind_ok by (apply compute_ok; exact Hschema).
  unfold fetch_from_cursor.
  erewrite bind_ok.
  2:{ erewrite bind_ok by (apply call_ok; exact Hdf).
      apply compute_ok. exact Happly. }
  unfold log_event. cbn [world trace self_ query].
  repeat rewrite <- app_assoc. reflexivity.
Qed.

(** X11. When the compiled query has no [dml] attribute, [execute] looks
    for a result handler on the query object itself.  Without one it
    returns the fetched result as it is.  With one it goes on to read
    [query_ast.dml] all the same and raises [AttributeError], after the
    query has run and its result has been fetched. *)
Theorem execute_without_dml {World} (E : Externals World)
    (expr : Expr) (params : Params) (limit : Limit) (kwargs : Kwargs)
    (st : State World) (c : Client) (bp : string)
    (ast : QueryAST) (sql : string) (results : PyObj)
    (qps : list QueryParameter) (job : QueryJob) (schema : Schema)
    (df : DataFrame) (fetched : PyObj) (w1 w2 w3 : World) :
  client (self_ st) = Some c ->
  billing_project (self_ st) = Some bp ->
  to_ast_ensure_limit E expr limit params = Ok ast ->
  dml ast = None ->
  ast_compile E ast = Ok sql ->
  bind_raw_sql_kwargs (kwargs_pop "timecontext" kwargs) (PyBool false)
    = Ok results ->
  Forall2 (fun pv qp => bigquery_param E (fst pv) (snd pv) = Ok qp)
          (param_items params) qps ->
  client_query E c sql (job_config_of (Some qps)) bp (world st)
    = (Ok job, w1) ->
  query_result E job w1 = (Ok tt, w2) ->
  ast_schema E ast (kwargs_pop "timecontext" kwargs) = Ok schema ->
  query_to_dataframe E job w2 = (Ok df, w3) ->
  schema_apply_to E schema df = Ok fetched ->
  fst (execute E expr params limit kwargs st)
    = match ast_result_handler ast with
      | None => Ok fetched
      | Some _ => Raise (AttributeError "dml")
      end /\
  world (snd (execute E expr params limit kwargs st)) = w3 /\
  In (returned (CToDataframe job))
     (trace (snd (execute E expr params limit kwargs st))).
Proof.
  intros Hc Hb Hast Hdml Hsql Hkw Hp Hq Hr Hschema Hdf Happly.
  rewrite (execute_until_fetched E expr params limit kwargs st c bp ast sql
             results qps job schema df fetched w1 w2 w3) by assumption.
  rewrite Hdml.
  assert (Hin : forall l1 l2 : list Event,
    In (returned (CToDataframe job))
       (l1 ++ l2 ++ [returned (CQuery c sql (job_config_of (Some qps)) bp);
                     returned (CJobResult job);
                     returned (CAstSchema ast
                                 (kwargs_pop "timecontext" kwargs));
                     returned (CToDataframe job);
                     returned (CApplyTo schema df)])%list).
  { intros l1 l2. apply in_or_app. right. apply in_or_app. right.
    simpl. auto. }
  destruct (ast_result_handler ast) as [h|]; cbn [fst snd world trace];
    repeat split;
    rewrite app_assoc; apply Hin.
Qed.

Lemma execute_without_dml_witness :
  fst (execute demo_strict_externals (ExprHandle 5) None LimitDefault []
         demo_state) = Raise (AttributeError "dml") /\
  fst (execute demo_strict_externals (ExprHandle 0) None LimitDefault []
         demo_state) = Ok (PyObjHandle 1).
Proof.
  split.
  - apply (execute_without_dml demo_strict_externals (ExprHandle 5) None
             LimitDefault [] demo_state (ClientHandle 0) "p"
             (mkQueryAST 5 None (Some (ResultHandlerHandle 5)))
             "SELECT 1 AS x" (PyBool false) [] (QueryJobHandle 1)
             (SchemaHandle 0) (DataFrameHandle 3) (PyObjHandle 1) 2 3 4);
      try reflexivity. constructor.
  - apply (execute_without_dml demo_strict_externals (ExprHandle 0) None
             LimitDefault [] demo_state (ClientHandle 0) "p"
             (mkQueryAST 0 None None)
             "SELECT 1 AS x" (PyBool false) [] (QueryJobHandle 1)
             (SchemaHandle 0) (DataFrameHandle 3) (PyObjHandle 1) 2 3 4);
      try reflexivity. constructor.
Defined.

(** ** Column types *)

(** X12. [_adapt_types] returns the column names in the order of the
    descriptors and, beside each, the type its descriptor converts to;
    when a column does not convert, the exception of the conversion is
    raised and nothing is returned for the columns before it. *)
Theorem adapt_types_by_column {World} (E : Externals World)
    (descr : list Field) (st : State World) :
  (forall names types,
     fst (_adapt_types E descr st) = Ok (names, types) ->
     names = map field_name descr /\
     length types = length names /\
     Forall2 (fun col t => bigquery_field_to_ibis_dtype E col = Ok t)
             descr types) /\
  (forall pre col post types e,
     descr = (pre ++ col :: post)%list ->
     Forall2 (fun col t => bigquery_field_to_ibis_dtype E col = Ok t)
             pre types ->
     bigquery_field_to_ibis_dtype E col = Raise e ->
     _adapt_types E descr st
       = (Raise e,
          mkState (self_ st) (world st)
            (trace st ++ map column_event pre
               ++ [failed (CFieldToDtype col) e]))).
Proof.
  split.
  - intros names types H. unfold _adapt_types, bind in H.
    destruct (for_each _ descr st) as [[ts|e] st'] eqn:Hr;
      [|discriminate H].
    simpl in H. injection H as <- <-.
    assert (HF : Forall2 (fun col t => bigquery_field_to_ibis_dtype E col = Ok t)
                         descr ts).
    { apply (for_each_compute_inv CFieldToDtype
               (bigquery_field_to_ibis_dtype E) descr ts st).
      now rewrite Hr. }
    split; [reflexivity|]. split; [|assumption].
    rewrite length_map. symmetry. eapply Forall2_length. exact HF.
  - intros pre col post types e -> Hpre Hcol. unfold _adapt_types.
    erewrite bind_raise; [reflexivity|].
    apply (for_each_compute_fail CFieldToDtype
             (bigquery_field_to_ibis_dtype E)) with (ys := types); assumption.
Qed.

Lemma adapt_types_by_column_witness :
  _adapt_types demo_strict_externals
      ([mkField "a" 1] ++ mkField "g" 9 :: [mkField "b" 2])%list demo_state
    = (Raise (LibraryError "KeyError" "GEOGRAPHY"),
       mkState demo_backend 1
         ([] ++ map column_event [mkField "a" 1]
             ++ [failed (CFieldToDtype (mkField "g" 9))
                   (LibraryError "KeyError" "GEOGRAPHY")])%list).
Proof.
  destruct (adapt_types_by_column demo_strict_externals
              ([mkField "a" 1] ++ mkField "g" 9 :: [mkField "b" 2])%list
              demo_state) as [_ H].
  apply (H [mkField "a" 1] (mkField "g" 9) [mkField "b" 2] [DTypeHandle 1]).
  - reflexivity.
  - repeat constructor.
  - reflexivity.
Defined.

(** ** Lookups *)

(** Resolution only reads the instance. *)
Lemma parse_project_and_dataset_same_self {World} (E : Externals World) d
    (st1 st2 : State World) r :
  self_ st2 = self_ st1 ->
  fst (_parse_project_and_dataset E d st1) = r ->
  _parse_project_and_dataset E d st2 = (r, st2).
Proof.
  intros Hs <-.
  pose proof (quiet_parse_project_and_dataset E d st2) as Hq.
  pose proof (parse_project_and_dataset_reads E E d st2 st1
                (fun _ _ => eq_refl)) as Hr.
  rewrite Hs in Hr. specialize (Hr eq_refl eq_refl eq_refl).
  destruct (_parse_project_and_dataset E d st2) as [r2 s2].
  simpl in *. now subst.
Qed.

Lemma fully_qualified_name_same_self {World} (E : Externals World) n d
    (st1 st2 : State World) r :
  self_ st2 = self_ st1 ->
  fst (_fully_qualified_name E n d st1) = r ->
  _fully_qualified_name E n d st2 = (r, st2).
Proof.
  intros Hs <-.
  destruct (fst (_parse_project_and_dataset E d st1)) as [[dp dd]|e] eqn:Hp.
  - pose proof (parse_project_and_dataset_same_self E d st1 st2 _ Hs Hp) as H2.
    rewrite (fully_qualified_name_unfold E n d st1 dp dd Hp).
    rewrite (fully_qualified_name_unfold E n d st2 dp dd)
      by (now rewrite H2).
    reflexivity.
  - pose proof (parse_project_and_dataset_same_self E d st1 st2 _ Hs Hp) as H2.
    rewrite (fully_qualified_name_defaults_fail E n d st1 e Hp).
    rewrite (fully_qualified_name_defaults_fail E n d st2 e)
      by (now rewrite H2).
    reflexivity.
Qed.

(** X13. [exists_table] warns that it is deprecated, then asks the client
    for the table the name resolves to, under its fully qualified id: it
    returns [True] when the lookup returns, [False] when the lookup raises
    [NotFound], and raises what the lookup raises otherwise.  When the name
    does not resolve it raises the resolution's exception, warning given and
    client not called. *)
Theorem exists_table_is_the_lookup {World} (E : Externals World)
    (name : string) (database : option string) (st : State World)
    (c : Client) :
  client (self_ st) = Some c ->
  (forall table_id,
     fst (_fully_qualified_name E name database st) = Ok table_id ->
     exists_table E name database st
       = (let '(r, w) := client_get_table E c (ById table_id) (world st) in
          (match r with
           | Ok _ => Ok true
           | Raise (NotFound _) => Ok false
           | Raise e => Raise e
           end,
           mkState (self_ st) w
             (trace st ++ [returned (CWarn msg_exists_table_deprecated);
                           mkEvent (CGetTable c (ById table_id))
                                   (raised r)])))) /\
  (forall e,
     fst (_fully_qualified_name E name database st) = Raise e ->
     exists_table E name database st
       = (Raise e,
          mkState (self_ st) (world st)
            (trace st ++ [returned (CWarn msg_exists_table_deprecated)]))).
Proof.
  intros Hc. split.
  - intros table_id H. unfold exists_table.
    erewrite bind_ok by reflexivity. cbv beta.
    erewrite bind_ok
      by (apply (fully_qualified_name_same_self E name database st);
          [reflexivity|exact H]).
    cbv beta.
    erewrite bind_ok by (unfold getattr; cbn; rewrite Hc; reflexivity).
    unfold found, try_except_NotFound, bind, call, ret, log_event. cbn.
    destruct (client_get_table E c (ById table_id) (world st))
      as [[t|e] w]; cbn.
    + rewrite <- app_assoc. reflexivity.
    + destruct e; cbn; rewrite <- app_assoc; reflexivity.
  - intros e H. unfold exists_table.
    erewrite bind_ok by reflexivity. cbv beta.
    erewrite bind_raise
      by (apply (fully_qualified_name_same_self E name database st);
          [reflexivity|exact H]).
    reflexivity.
Qed.

Lemma exists_table_is_the_lookup_witness :
  exists_table demo_externals "missing" None demo_state
    = (Ok false,
       mkState demo_backend 2
         [returned (CWarn msg_exists_table_deprecated);
          failed (CGetTable (ClientHandle 0) (ById "p.d.missing"))
                 (NotFound "Not found: Table p:d.missing")]) /\
  exists_table demo_externals "a.b.c.d" None demo_state
    = (Raise (ValueError "Got too many components in table name: a.b.c.d"),
       mkState demo_backend 1
         [returned (CWarn msg_exists_table_deprecated)]).
Proof.
  destruct (exists_table_is_the_lookup demo_externals "missing" None
              demo_state (ClientHandle 0) eq_refl) as [H1 _].
  destruct (exists_table_is_the_lookup demo_externals "a.b.c.d" None
              demo_state (ClientHandle 0) eq_refl) as [_ H2].
  split.
  - exact (H1 "p.d.missing" eq_refl).
  - exact (H2 _ eq_refl).
Defined.

(** X14. [exists_database] warns that it is deprecated, then asks the
    client for the dataset the name resolves to, in the project it resolves
    to: [True] when the lookup returns, [False] when it raises [NotFound],
    the lookup's exception otherwise.  When no dataset can be determined it
    raises instead of answering. *)
Theorem exists_database_is_the_lookup {World} (E : Externals World)
    (name : option string) (st : State World) (c : Client) :
  client (self_ st) = Some c ->
  (forall project dataset',
     fst (_parse_project_and_dataset E name st) = Ok (project, dataset') ->
     exists_database E name st
       = (let '(r, w) :=
            client_get_dataset E c (mkDatasetReference project dataset')
              (world st) in
          (match r with
           | Ok _ => Ok true
           | Raise (NotFound _) => Ok false
           | Raise e => Raise e
           end,
           mkState (self_ st) w
             (trace st ++ [returned (CWarn msg_exists_database_deprecated);
                           mkEvent (CGetDataset c
                                      (mkDatasetReference project dataset'))
                                   (raised r)])))) /\
  (forall e,
     fst (_parse_project_and_dataset E name st) = Raise e ->
     exists_database E name st
       = (Raise e,
          mkState (self_ st) (world st)
            (trace st ++ [returned (CWarn msg_exists_database_deprecated)]))).
Proof.
  intros Hc. split.
  - intros project dataset' H. unfold exists_database.
    erewrite bind_ok by reflexivity. cbv beta.
    erewrite bind_ok
      by (apply (parse_project_and_dataset_same_self E name st);
          [reflexivity|exact H]).
    cbv beta iota.
    erewrite bind_ok by (unfold getattr; cbn; rewrite Hc; reflexivity).
    unfold found, try_except_NotFound, bind, call, ret, log_event. cbn.
    destruct (client_get_dataset E c _ (world st)) as [[t|e] w]; cbn.
    + rewrite <- app_assoc. reflexivity.
    + destruct e; cbn; rewrite <- app_assoc; reflexivity.
  - intros e H. unfold exists_database.
    erewrite bind_ok by reflexivity. cbv beta.
    erewrite bind_raise
      by (apply (parse_project_and_dataset_same_self E name st);
          [reflexivity|exact H]).
    reflexivity.
Qed.

Lemma exists_database_is_the_lookup_witness :
  exists_database demo_externals (Some "q.missing") demo_state
    = (Ok false,
       mkState demo_backend 2
         [returned (CWarn msg_exists_database_deprecated);
          failed (CGetDataset (ClientHandle 0)
                    (mkDatasetReference "q" "missing"))
                 (NotFound "Not found: Dataset p:missing")]) /\
  exists_database demo_externals None (mkState demo_backend_no_dataset 1 [])
    = (Raise (ValueError msg_no_dataset),
       mkState demo_backend_no_dataset 1
         [returned (CWarn msg_exists_database_deprecated)]).
Proof.
  destruct (exists_database_is_the_lookup demo_externals (Some "q.missing")
              demo_state (ClientHandle 0) eq_refl) as [H1 _].
  destruct (exists_database_is_the_lookup demo_externals None
              (mkState demo_backend_no_dataset 1 []) (ClientHandle 0) eq_refl)
    as [_ H2].
  split.
  - exact (H1 "q" "missing" eq_refl).
  - exact (H2 _ eq_refl).
Defined.






(** ** Schemas and tables *)

(** X15. On a connected instance, when every step returns,
    [_get_schema_using_query] runs the query without parameters, waits for
    it, reads the cursor's description and builds the schema from the
    column names and the converted column types, both in column order. *)
Theorem get_schema_using_query_builds_schema {World} (E : Externals World)
    (limited_query : string) (st : State World) (c : Client) (bp : string)
    (job : QueryJob) (descr : list Field) (types : list DType)
    (schema : Schema) (w1 w2 w3 : World) :
  client (self_ st) = Some c ->
  billing_project (self_ st) = Some bp ->
  client_query E c limited_query (job_config_of None) bp (world st)
    = (Ok job, w1) ->
  query_result E job w1 = (Ok tt, w2) ->
  cursor_description E (mkBigQueryCursor job) w2 = (Ok descr, w3) ->
  Forall2 (fun col t => bigquery_field_to_ibis_dtype E col = Ok t)
          descr types ->
  sch_Schema E (map field_name descr) types = Ok schema ->
  _get_schema_using_query E limited_query st
    = (Ok schema,
       mkState (self_ st) w3
         (trace st
          ++ [returned (CQuery c limited_query (job_config_of None) bp);
              returned (CJobResult job);
              returned (CDescription (mkBigQueryCursor job))]
          ++ map column_event descr
          ++ [returned (CSchema (map field_name descr) types)])).
Proof.
  intros Hc Hb Hq Hr Hd Ht Hs. unfold _get_schema_using_query.
  erewrite bind_ok.
  2:{ rewrite (execute_stmt_unfold E limited_query (PyBool true) None st c bp
                 Hc Hb).
      rewrite Hq, Hr. reflexivity. }
  cbv beta.
  erewrite bind_ok by (apply call_ok; exact Hd). cbv beta.
  unfold _adapt_types.
  erewrite bind_ok.
  2:{ erewrite bind_ok
        by (apply (for_each_compute_ok CFieldToDtype
                     (bigquery_field_to_ibis_dtype E)); exact Ht).
      reflexivity. }
  cbv beta iota.
  rewrite (compute_ok _ _ schema _ Hs). cbn [self_ world trace].
  f_equal. f_equal. repeat rewrite <- app_assoc. reflexivity.
Qed.

Lemma get_schema_using_query_builds_schema_witness :
  _get_schema_using_query demo_externals "SELECT 1 AS x" demo_state
    = (Ok (SchemaHandle 1),
       mkState demo_backend 4
         ([]
          ++ [returned (CQuery (ClientHandle 0) "SELECT 1 AS x"
                          (job_config_of None) "p");
              returned (CJobResult (QueryJobHandle 1));
              returned (CDescription (mkBigQueryCursor (QueryJobHandle 1)))]
          ++ map column_event [mkField "x" 0]
          ++ [returned (CSchema (map field_name [mkField "x" 0])
                          [DTypeHandle 0])])%list).
Proof.
  apply (get_schema_using_query_builds_schema demo_externals "SELECT 1 AS x"
           demo_state (ClientHandle 0) "p" (QueryJobHandle 1)
           [mkField "x" 0] [DTypeHandle 0] (SchemaHandle 1) 2 3 4);
    try reflexivity.
  repeat constructor.
Defined.

(** X16. [table] asks the framework for the table expression first, then
    the client for the table under its fully qualified id, and returns the
    expression with the partition column renamed to the connection's
    [partition_column].  When the name does not resolve, the framework has
    been asked but the client is not. *)
Theorem table_looks_up_and_renames {World} (E : Externals World)
    (name : string) (database : option string) (st : State World)
    (c : Client) (pc : option string) (t : TableExpr) (w1 : World) :
  client (self_ st) = Some c ->
  partition_column (self_ st) = Some pc ->
  super_table E name database (world st) = (Ok t, w1) ->
  (forall table_id bq_table w2,
     fst (_fully_qualified_name E name database st) = Ok table_id ->
     client_get_table E c (ById table_id) w1 = (Ok bq_table, w2) ->
     table E name database st
       = (rename_partitioned_column E t bq_table pc,
          mkState (self_ st) w2
            (trace st
             ++ [returned (CSuperTable name database);
                 returned (CGetTable c (ById table_id));
                 mkEvent (CRenamePartitioned t bq_table pc)
                   (raised (rename_partitioned_column E t bq_table pc))]))) /\
  (forall e,
     fst (_fully_qualified_name E name database st) = Raise e ->
     table E name database st
       = (Raise e,
          mkState (self_ st) w1
            (trace st ++ [returned (CSuperTable name database)]))).
Proof.
  intros Hc Hpc Hsuper. split.
  - intros table_id bq_table w2 Hid Hget. unfold table.
    erewrite bind_ok by (apply call_ok; exact Hsuper). cbv beta.
    erewrite bind_ok
      by (apply (fully_qualified_name_same_self E name database st);
          [reflexivity|exact Hid]).
    cbv beta.
    erewrite bind_ok by (unfold getattr; cbn; rewrite Hc; reflexivity).
    cbv beta.
    erewrite bind_ok by (apply call_ok; exact Hget). cbv beta.
    erewrite bind_ok by (unfold getattr; cbn; rewrite Hpc; reflexivity).
    cbv beta. unfold compute, log_event. cbn [self_ world trace].
    f_equal. f_equal. repeat rewrite <- app_assoc. reflexivity.
  - intros e He. unfold table.
    erewrite bind_ok by (apply call_ok; exact Hsuper). cbv beta.
    erewrite bind_raise
      by (apply (fully_qualified_name_same_self E name database st);
          [reflexivity|exact He]).
    reflexivity.
Qed.

Lemma table_looks_up_and_renames_witness :
  table demo_externals "d2.orders" None demo_state
    = (Ok (TableExprHandle 1),
       mkState demo_backend 3
         ([] ++ [returned (CSuperTable "d2.orders" None);
                 returned (CGetTable (ClientHandle 0) (ById "p.d2.orders"));
                 mkEvent (CRenamePartitioned (TableExprHandle 1)
                            (BqTableHandle 2) (Some "PARTITIONTIME"))
                         None])%list).
Proof.
  destruct (table_looks_up_and_renames demo_externals "d2.orders" None
              demo_state (ClientHandle 0) (Some "PARTITIONTIME")
              (TableExprHandle 1) 2 eq_refl eq_refl eq_refl) as [H _].
  exact (H "p.d2.orders" (BqTableHandle 2) 3 eq_refl eq_refl).
Defined.

(** X17. [get_schema] parses the fully qualified id into a table reference
    before it turns to the client: when the name does not resolve, or the
    id does not parse, it raises with the client not called; otherwise it
    looks the reference up and infers the schema from the table found. *)
Theorem get_schema_parses_then_looks_up {World} (E : Externals World)
    (name : string) (database : option string) (st : State World)
    (c : Client) :
  client (self_ st) = Some c ->
  (forall e,
     fst (_fully_qualified_name E name database st) = Raise e ->
     get_schema E name database st = (Raise e, st)) /\
  (forall table_id e,
     fst (_fully_qualified_name E name database st) = Ok table_id ->
     TableReference_from_string E table_id = Raise e ->
     get_schema E name database st
       = (Raise e,
          mkState (self_ st) (world st)
            (trace st ++ [failed (CTableReferenceFromString table_id) e]))) /\
  (forall table_id ref bq_table w,
     fst (_fully_qualified_name E name database st) = Ok table_id ->
     TableReference_from_string E table_id = Ok ref ->
     client_get_table E c (ByRef ref) (world st) = (Ok bq_table, w) ->
     get_schema E name database st
       = (sch_infer E bq_table,
          mkState (self_ st) w
            (trace st
             ++ [returned (CTableReferenceFromString table_id);
                 returned (CGetTable c (ByRef ref));
                 mkEvent (CInfer bq_table) (raised (sch_infer E bq_table))]))).
Proof.
  intros Hc. split; [|split].
  - intros e He. unfold get_schema.
    erewrite bind_raise
      by (apply (fully_qualified_name_same_self E name database st);
          [reflexivity|exact He]).
    reflexivity.
  - intros table_id e Hid Hp. unfold get_schema.
    erewrite bind_ok
      by (apply (fully_qualified_name_same_self E name database st);
          [reflexivity|exact Hid]).
    cbv beta.
    erewrite bind_raise by (apply compute_raise; exact Hp). reflexivity.
  - intros table_id ref bq_table w Hid Hp Hget. unfold get_schema.
    erewrite bind_ok
      by (apply (fully_qualified_name_same_self E name database st);
          [reflexivity|exact Hid]).
    cbv beta.
    erewrite bind_ok by (apply compute_ok; exact Hp). cbv beta.
    erewrite bind_ok by (unfold getattr; cbn; rewrite Hc; reflexivity).
    cbv beta.
    erewrite bind_ok by (apply call_ok; exact Hget). cbv beta.
    unfold compute, log_event. cbn [self_ world trace].
    f_equal. f_equal. repeat rewrite <- app_assoc. reflexivity.
Qed.

Lemma get_schema_parses_then_looks_up_witness :
  get_schema demo_externals "orders" None demo_state
    = (Ok (SchemaHandle 2),
       mkState demo_backend 2
         ([] ++ [returned (CTableReferenceFromString "p.d.orders");
                 returned (CGetTable (ClientHandle 0)
                             (ByRef (TableReferenceHandle 0)));
                 mkEvent (CInfer (BqTableHandle 1)) None])%list) /\
  get_schema demo_externals "a.b.c.d" None demo_state
    = (Raise (ValueError "Got too many components in table name: a.b.c.d"),
       demo_state).
Proof.
  destruct (get_schema_parses_then_looks_up demo_externals "orders" None
              demo_state (ClientHandle 0) eq_refl) as [_ [_ H3]].
  destruct (get_schema_parses_then_looks_up demo_externals "a.b.c.d" None
              demo_state (ClientHandle 0) eq_refl) as [H1 _].
  split.
  - exact (H3 "p.d.orders" (TableReferenceHandle 0) (BqTableHandle 1) 2
             eq_refl eq_refl eq_refl).
  - exact (H1 _ eq_refl).
Defined.

(** ** The operations that stay away from the client *)

Ltac client_side := intros; reflexivity.

Ltac client_step :=
  first [ apply keeps_log_quiet;
          first [ apply quiet_ret | apply quiet_raise | apply quiet_lift
                | apply quiet_getattr | apply quiet_parse_project_and_dataset
                | apply quiet_fully_qualified_name ]
        | apply keeps_log_call; client_side
        | apply keeps_log_compute; client_side
        | apply keeps_log_note; client_side
        | apply keeps_log_setself
        | apply keeps_log_for_each; intros ?
        | apply keeps_log_fmap
        | apply keeps_log_bind; [|intros ? ?]
        | match goal with
          | |- keeps_log _ (match ?x with _ => _ end) => destruct x
          end ].

(** The operations not counted as data-accessing add no call through the
    client or a query job to the log, on any instance. *)
Lemma other_operations_make_no_client_call {World} (E : Externals World)
    (op : Op) (st : State World) :
  data_accessing op = false ->
  no_client_call (trace st) ->
  no_client_call (trace (snd (run E op st))).
Proof.
  intros Hop. revert st.
  change (keeps_log (fun ev => is_client_call (ev_call ev) = false)
            (run E op)).
  destruct op; try discriminate; simpl;
    unfold connect, project_id, dataset_id, _adapt_types, current_database,
      database, set_database, version;
    cbv zeta; repeat client_step.
Qed.
